(** * glances_info_mcp: a shallow embedding of the Glances telemetry tools

    The program is a single Python module.  It keeps a registry of Glances
    servers ([SERVERS], [DEFAULT_SERVER]), fetches JSON from one of them and
    renders the payload into text.  The embedding follows the module top to
    bottom:

    - Python values as they come out of [json.load] / [response.json()],
      with the exceptions the builtin operations raise on them;
    - the registry and its default pointer, as explicit state;
    - the HTTP adapter, as a function from URLs to optional JSON bodies;
    - the formatters and the tool handlers, in the [result] monad. *)

From Stdlib Require Import ZArith String Ascii List Lia.
From Stdlib Require Import Floats.SpecFloat.
From Stdlib Require Import DecimalString.
From stdpp Require Import gmap strings list fin_maps.

Set Warnings "-register-all".
Local Open Scope string_scope.
Local Open Scope Z_scope.

(* ===================================================================== *)
(** ** Python values *)
(* ===================================================================== *)

(** A parsed JSON document.  Python's [json] module yields [None], [bool],
    [int], [float] (an IEEE 754 binary64), [str], [list] and [dict]; a dict
    keeps its keys in insertion order, so it is an association list. *)
Inductive json :=
| JNull
| JBool (b : bool)
| JInt (n : Z)
| JFloat (f : spec_float)
| JStr (s : string)
| JList (l : list json)
| JDict (d : list (string * json)).

(** The exceptions the module can meet.  Only [ValueError] is ever caught
    (and turned into text with [str(e)]), so only it carries its message. *)
Inductive exn :=
| ValueError (msg : string)
| KeyError
| IndexError
| TypeError
| AttributeError
| OverflowError.

Inductive result (A : Type) :=
| Ok (a : A)
| Raise (e : exn).
Arguments Ok {A} a.
Arguments Raise {A} e.

#[global] Instance result_ret : MRet result := @Ok.
#[global] Instance result_bind : MBind result :=
  fun A B (k : A -> result B) (r : result A) =>
    match r with
    | Ok a => k a
    | Raise e => Raise e
    end.

Definition is_ok {A} (r : result A) : bool :=
  match r with Ok _ => true | Raise _ => false end.

(** [try: ... except ValueError as e: return str(e)] *)
Definition except_ValueError (r : result string) : result string :=
  match r with
  | Raise (ValueError msg) => Ok msg
  | _ => r
  end.

Definition nl : string := String (ascii_of_nat 10) EmptyString.

(** [sep.join(parts)] *)
Fixpoint join (sep : string) (parts : list string) : string :=
  match parts with
  | [] => ""
  | [s] => s
  | s :: rest => s +:+ sep +:+ join sep rest
  end.

(** [str(n)] for an [int]. *)
Definition str_int (n : Z) : string := NilZero.string_of_int (Z.to_int n).

(** *** Strings are sequences of code points

    A Rocq [string] holds the UTF-8 bytes of a Python [str].  Iterating,
    indexing and slicing a [str] work on code points: a code point is a
    leading byte followed by its continuation bytes (10xxxxxx). *)
Definition is_continuation (a : ascii) : bool :=
  let n := N_of_ascii a in ((128 <=? n) && (n <? 192))%N.

Fixpoint utf8_split (s : string) : string * list string :=
  match s with
  | EmptyString => (EmptyString, [])
  | String a s' =>
      let '(cont, cs) := utf8_split s' in
      if is_continuation a then (String a cont, cs)
      else (EmptyString, String a cont :: cs)
  end.

Definition code_points (s : string) : list string :=
  let '(cont, cs) := utf8_split s in
  match cont with
  | EmptyString => cs
  | _ => cont :: cs
  end.

(** [needle in haystack] for two [str]. *)
Fixpoint is_prefix (p s : string) : bool :=
  match p, s with
  | EmptyString, _ => true
  | String a p', String b s' => if Ascii.eqb a b then is_prefix p' s' else false
  | String _ _, EmptyString => false
  end.

Fixpoint str_contains (needle haystack : string) : bool :=
  if is_prefix needle haystack then true
  else match haystack with
       | EmptyString => false
       | String _ rest => str_contains needle rest
       end.

(* ===================================================================== *)
(** ** Numbers: [int] is [Z], [float] is binary64 *)
(* ===================================================================== *)

Definition f64_of_Z (n : Z) : spec_float := binary_normalize 53 1024 n 0 false.

Definition is_infinite (f : spec_float) : bool :=
  match f with S754_infinity _ => true | _ => false end.

(** [float(n)]: round to nearest even, [OverflowError] beyond the range. *)
Definition float_of_int (n : Z) : result spec_float :=
  let f := f64_of_Z n in
  if is_infinite f then Raise OverflowError else Ok f.

(** [n / d] for two [int] with [d > 0]: the correctly rounded quotient. *)
Definition int_truediv (n : Z) (d : positive) : result spec_float :=
  match n with
  | Z0 => Ok (S754_zero false)
  | Zpos m =>
      let q := SFdiv 53 1024 (S754_finite false m 0) (S754_finite false d 0) in
      if is_infinite q then Raise OverflowError else Ok q
  | Zneg m =>
      let q := SFdiv 53 1024 (S754_finite true m 0) (S754_finite false d 0) in
      if is_infinite q then Raise OverflowError else Ok q
  end.

Definition Z_of_bool (b : bool) : Z := if b then 1 else 0.

(** [v / d] where [d] is a positive [int] constant of the source. *)
Definition py_truediv (v : json) (d : positive) : result json :=
  match v with
  | JInt n => f ← int_truediv n d; Ok (JFloat f)
  | JBool b => f ← int_truediv (Z_of_bool b) d; Ok (JFloat f)
  | JFloat f => Ok (JFloat (SFdiv 53 1024 f (f64_of_Z (Zpos d))))
  | _ => Raise TypeError
  end.

(** [v < c] where [c] is an [int] constant of the source. *)
Definition py_lt (v : json) (c : Z) : result bool :=
  match v with
  | JInt n => Ok (n <? c)
  | JBool b => Ok (Z_of_bool b <? c)
  | JFloat f => Ok (SFltb f (f64_of_Z c))
  | _ => Raise TypeError
  end.

(** Round [n * 2^e] to the nearest integer, ties to even ([n >= 0]). *)
Definition round_half_even (n e : Z) : Z :=
  if 0 <=? e then n * 2 ^ e
  else
    let d := 2 ^ (- e) in
    let q := n / d in
    let r := n mod d in
    match 2 * r ?= d with
    | Lt => q
    | Gt => q + 1
    | Eq => if Z.even q then q else q + 1
    end.

Definition two_digits (n : Z) : string :=
  if n <? 10 then "0" +:+ str_int n else str_int n.

Definition sign_str (s : bool) : string := if s then "-" else "".

(** [format(f, '.2f')] for a [float]: the exact binary value, correctly
    rounded to two decimals. *)
Definition float_fmt2 (f : spec_float) : string :=
  match f with
  | S754_nan => "nan"
  | S754_infinity s => sign_str s +:+ "inf"
  | S754_zero s => sign_str s +:+ "0.00"
  | S754_finite s m e =>
      let r := round_half_even (Zpos m * 100) e in
      sign_str s +:+ str_int (r / 100) +:+ "." +:+ two_digits (r mod 100)
  end.

(** [f"{v:.2f}"]: an [int] is converted with [float()] first. *)
Definition fmt2f (v : json) : result string :=
  match v with
  | JInt n => f ← float_of_int n; Ok (float_fmt2 f)
  | JBool b => f ← float_of_int (Z_of_bool b); Ok (float_fmt2 f)
  | JFloat f => Ok (float_fmt2 f)
  | JStr _ => Raise (ValueError "Unknown format code 'f' for object of type 'str'")
  | _ => Raise TypeError
  end.

(** [int(f)] for a finite [float]: truncation toward zero. *)
Definition float_trunc (f : spec_float) : result Z :=
  match f with
  | S754_nan => Raise (ValueError "cannot convert float NaN to integer")
  | S754_infinity _ => Raise OverflowError
  | S754_zero _ => Ok 0
  | S754_finite s m e =>
      let a := if 0 <=? e then Zpos m * 2 ^ e else Zpos m / 2 ^ (- e) in
      Ok (if s then - a else a)
  end.

(** [not v] *)
Definition truthy (v : json) : bool :=
  match v with
  | JNull => false
  | JBool b => b
  | JInt n => negb (n =? 0)
  | JFloat (S754_zero _) => false
  | JFloat _ => true
  | JStr s => negb (String.eqb s "")
  | JList l => match l with [] => false | _ => true end
  | JDict d => match d with [] => false | _ => true end
  end.

(* ===================================================================== *)
(** ** Container operations *)
(* ===================================================================== *)

Fixpoint assoc (k : string) (d : list (string * json)) : option json :=
  match d with
  | [] => None
  | (k', v) :: rest => if String.eqb k k' then Some v else assoc k rest
  end.

(** [v.get(k, dflt)]: only a [dict] has the method. *)
Definition py_get (v : json) (k : string) (dflt : json) : result json :=
  match v with
  | JDict d => Ok (default dflt (assoc k d))
  | _ => Raise AttributeError
  end.

(** [v.items()] *)
Definition py_items (v : json) : result (list (string * json)) :=
  match v with
  | JDict d => Ok d
  | _ => Raise AttributeError
  end.

(** [for x in v]: a list yields its elements, a dict its keys, a str its
    code points. *)
Definition py_iter (v : json) : result (list json) :=
  match v with
  | JList l => Ok l
  | JDict d => Ok (List.map (fun kv => JStr (fst kv)) d)
  | JStr s => Ok (List.map JStr (code_points s))
  | _ => Raise TypeError
  end.

(** [v[:n]].  (Slicing a dict is a [TypeError] up to CPython 3.11.) *)
Definition py_slice (v : json) (n : nat) : result json :=
  match v with
  | JList l => Ok (JList (firstn n l))
  | JStr s => Ok (JStr (String.concat "" (firstn n (code_points s))))
  | _ => Raise TypeError
  end.

(** [v[0]].  The keys of a parsed JSON object are strings, never [0]. *)
Definition py_index0 (v : json) : result json :=
  match v with
  | JList (x :: _) => Ok x
  | JList [] => Raise IndexError
  | JStr s =>
      match code_points s with
      | c :: _ => Ok (JStr c)
      | [] => Raise IndexError
      end
  | JDict _ => Raise KeyError
  | _ => Raise TypeError
  end.

(** [v == c] for an [int] constant [c]. *)
Definition py_eq_int (v : json) (c : Z) : bool :=
  match v with
  | JInt n => n =? c
  | JBool b => Z_of_bool b =? c
  | JFloat f => SFeqb f (f64_of_Z c)
  | _ => false
  end.

(* ===================================================================== *)
(** ** The server registry *)
(* ===================================================================== *)

(** One entry of [SERVERS], as [add_server] builds it; the entries read
    from the configuration file carry the same three fields. *)
Record server := {
  srv_name : string;
  srv_url : string;
  srv_description : string
}.

(** The module's two globals: [SERVERS] and [DEFAULT_SERVER] (its ["id"] and
    ["env"] fields). *)
Record state := {
  SERVERS : gmap string server;
  default_id : string;
  default_env : string
}.

Definition get_default_server_id (st : state) : string := default_id st.

Definition unknown_server (server_id : string) : exn :=
  ValueError ("未找到服务器配置: " +:+ server_id).

(** The membership test comes first; both fields of [DEFAULT_SERVER] are
    written only after it passed. *)
Definition set_default_server_id (server_id : string) (st : state)
  : result unit * state :=
  match SERVERS st !! server_id with
  | None => (Raise (unknown_server server_id), st)
  | Some srv =>
      (Ok tt,
       {| SERVERS := SERVERS st;
          default_id := server_id;
          default_env :=
            if str_contains "生产" (srv_description srv) then "prod" else "test" |})
  end.

Definition get_server_url (server_id : option string) (st : state)
  : result string :=
  let server_id :=
    match server_id with
    | None => get_default_server_id st
    | Some i => i
    end in
  match SERVERS st !! server_id with
  | None => Raise (unknown_server server_id)
  | Some srv => Ok (srv_url srv)
  end.

(** [SERVERS[server_id]] where [server_id] is a tool argument, possibly
    [None]: a missing key is a [KeyError]. *)
Definition SERVERS_getitem (st : state) (server_id : option string)
  : result server :=
  match server_id with
  | None => Raise KeyError
  | Some i =>
      match SERVERS st !! i with
      | Some srv => Ok srv
      | None => Raise KeyError
      end
  end.

(** The registry tools.  Each returns its text and the new globals.
    ([list_servers] only prints the registry and is left out.) *)
Definition set_default_server (server_id : string) (st : state)
  : result string * state :=
  match set_default_server_id server_id st with
  | (Ok _, st') =>
      (except_ValueError
         (srv ← SERVERS_getitem st' (Some server_id);
          Ok ("已将默认服务器设置为: " +:+ srv_name srv +:+ " ("
              +:+ srv_description srv +:+ ")")),
       st')
  | (Raise e, st') => (except_ValueError (Raise e), st')
  end.

Definition get_default_server (st : state) : result string :=
  let server_id := get_default_server_id st in
  srv ← SERVERS_getitem st (Some server_id);
  Ok (nl +:+ "当前默认服务器:" +:+ nl
      +:+ "ID: " +:+ server_id +:+ nl
      +:+ "名称: " +:+ srv_name srv +:+ nl
      +:+ "环境: "
      +:+ (if String.eqb (default_env st) "prod" then "生产环境" else "测试环境")
      +:+ nl
      +:+ "描述: " +:+ srv_description srv +:+ nl
      +:+ "地址: " +:+ srv_url srv +:+ nl).

Definition add_server (server_id name url description : string) (st : state)
  : result string * state :=
  match SERVERS st !! server_id with
  | Some _ => (Ok ("错误：服务器ID '" +:+ server_id +:+ "' 已存在"), st)
  | None =>
      (Ok ("成功添加服务器 '" +:+ name +:+ "'"),
       {| SERVERS :=
            <[server_id :=
                {| srv_name := name; srv_url := url;
                   srv_description := description |}]> (SERVERS st);
          default_id := default_id st;
          default_env := default_env st |})
  end.

Definition remove_server (server_id : string) (st : state)
  : result string * state :=
  match SERVERS st !! server_id with
  | None => (Ok ("错误：未找到服务器ID '" +:+ server_id +:+ "'"), st)
  | Some _ =>
      (Ok ("成功删除服务器 '" +:+ server_id +:+ "'"),
       {| SERVERS := delete server_id (SERVERS st);
          default_id := default_id st;
          default_env := default_env st |})
  end.

(** The registry invariant of the specification: the default id names an
    entry of [SERVERS]. *)
Definition default_registered (st : state) : Prop :=
  is_Some (SERVERS st !! default_id st).

(** A sequence of registry operations. *)
Inductive registry_op :=
| OpAdd (server_id name url description : string)
| OpRemove (server_id : string)
| OpSetDefault (server_id : string).

Definition run_op (op : registry_op) (st : state) : result string * state :=
  match op with
  | OpAdd i n u d => add_server i n u d st
  | OpRemove i => remove_server i st
  | OpSetDefault i => set_default_server i st
  end.

Fixpoint run_ops (ops : list registry_op) (st : state) : state :=
  match ops with
  | [] => st
  | op :: rest => run_ops rest (snd (run_op op st))
  end.

(** An operation other than the removal of the current default. *)
Definition spares_default (op : registry_op) (st : state) : Prop :=
  match op with
  | OpRemove i => i <> default_id st
  | _ => True
  end.

(* ===================================================================== *)
(** ** The HTTP adapter *)
(* ===================================================================== *)

(** The remote agents.  [http_get url] is the parsed body of a GET that
    went through ([client.get], [raise_for_status], [response.json()]), and
    [None] when any of the three raised; [http_post url] tells whether a
    POST went through. *)
Record adapter := {
  http_get : string -> option json;
  http_post : string -> bool
}.

(** The URL is built before the [try]: an unknown id raises [ValueError]
    out of the function; every failure of the request itself gives [None]. *)
Definition make_glances_request (endpoint : string) (server_id : option string)
    (st : state) (w : adapter) : result json :=
  let server_id :=
    match server_id with
    | None => get_default_server_id st
    | Some i => i
    end in
  base ← get_server_url (Some server_id) st;
  Ok (default JNull (http_get w (base +:+ "/" +:+ endpoint))).

Definition make_glances_post_request (endpoint : string)
    (server_id : option string) (st : state) (w : adapter) : result bool :=
  let server_id :=
    match server_id with
    | None => get_default_server_id st
    | Some i => i
    end in
  base ← get_server_url (Some server_id) st;
  Ok (http_post w (base +:+ "/" +:+ endpoint)).

(** [f"{server_id}"] for a tool argument. *)
Definition str_server_id (server_id : option string) : string :=
  match server_id with
  | None => "None"
  | Some i => i
  end.

(** [for x in xs: result += ...], threading the accumulated text. *)
Fixpoint for_loop {A} (xs : list A) (body : string -> A -> result string)
    (acc : string) : result string :=
  match xs with
  | [] => Ok acc
  | x :: rest => acc' ← body acc x; for_loop rest body acc'
  end.

(** [enumerate(xs)] *)
Definition enumerate {A} (xs : list A) : list (Z * A) :=
  combine (List.map Z.of_nat (seq 0 (length xs))) xs.

(* ===================================================================== *)
(** ** The interpreter's builtins *)
(* ===================================================================== *)

(** Three builtins are taken as given: [repr] of a [float] (the shortest
    digits that round-trip), [repr] of a [str] (quoting and escaping) and
    [int] of a [str]: [int_of_str] is the integer read ([None] when the
    text is rejected) and [int_error_text] the message of the [ValueError]
    raised on a rejected text (the invalid-literal message with the repr
    cut at 200 characters, or the digit-limit message). *)
Record interpreter := {
  float_repr : spec_float -> string;
  str_repr : string -> string;
  int_of_str : string -> option Z;
  int_error_text : string -> string
}.

(* ===================================================================== *)
(** ** Data for the worked examples *)
(* ===================================================================== *)

(** Executable stand-ins for the interpreter builtins, used only to run
    the tools on the concrete payloads below.  They agree with CPython on
    the values those payloads hold: floats whose exact decimal expansion is
    short (at most 15 significant digits, magnitude in [1e-4, 1e16)), strings
    without quote, backslash or control character and shorter than 198
    characters, and plain decimal literals of fewer than 4300 digits (a
    rejected text is reported by the invalid-literal message). *)
Fixpoint fraction_digits (k : nat) (r : Z) : list Z :=
  match k with
  | O => []
  | S k' => r / 10 ^ Z.of_nat k' :: fraction_digits k' (r mod 10 ^ Z.of_nat k')
  end.

Fixpoint strip_trailing_zeros (ds : list Z) : list Z :=
  match ds with
  | [] => []
  | d :: rest =>
      match strip_trailing_zeros rest with
      | [] => if d =? 0 then [] else [d]
      | rest' => d :: rest'
      end
  end.

Definition exact_float_repr (f : spec_float) : string :=
  match f with
  | S754_nan => "nan"
  | S754_infinity s => sign_str s +:+ "inf"
  | S754_zero s => sign_str s +:+ "0.0"
  | S754_finite s m e =>
      if 0 <=? e then sign_str s +:+ str_int (Zpos m * 2 ^ e) +:+ ".0"
      else
        let k := - e in
        let n := Zpos m * 5 ^ k in
        let ds := strip_trailing_zeros (fraction_digits (Z.to_nat k) (n mod 10 ^ k)) in
        sign_str s +:+ str_int (n / 10 ^ k) +:+ "."
          +:+ match ds with
              | [] => "0"
              | _ => String.concat "" (List.map str_int ds)
              end
  end.

Definition quoted_str_repr (s : string) : string := "'" +:+ s +:+ "'".

Definition decimal_int_of_str (s : string) : option Z :=
  match s with
  | EmptyString => None
  | _ => option_map Z.of_int (NilZero.int_of_string s)
  end.

Definition invalid_literal_text (s : string) : string :=
  "invalid literal for int() with base 10: " +:+ quoted_str_repr s.

Definition example_interpreter : interpreter :=
  {| float_repr := exact_float_repr;
     str_repr := quoted_str_repr;
     int_of_str := decimal_int_of_str;
     int_error_text := invalid_literal_text |}.

(** A registry with a test and a production server; the test server is
    the default, as in the module's initial [DEFAULT_SERVER]. *)
Definition example_server1 : server :=
  {| srv_name := "测试服务器";
     srv_url := "http://192.168.1.10:61208/api/4";
     srv_description := "测试环境" |}.

Definition example_server2 : server :=
  {| srv_name := "生产服务器";
     srv_url := "http://192.168.1.20:61208/api/4";
     srv_description := "生产环境" |}.

Definition example_servers : gmap string server :=
  <["server1" := example_server1]> (<["server2" := example_server2]> ∅).

Definition example_state : state :=
  {| SERVERS := example_servers; default_id := "server1"; default_env := "test" |}.

(** No agent answers: every GET and every POST fails. *)
Definition no_agent : adapter :=
  {| http_get := fun _ => None; http_post := fun _ => false |}.

(** An agent that answers every GET with the same body. *)
Definition constant_agent (body : json) : adapter :=
  {| http_get := fun _ => Some body; http_post := fun _ => true |}.

(** Payloads of an agent at server1, one per endpoint. *)
Definition example_interface : list (string * json) :=
  [("interface_name", JStr "eth0");
   ("bytes_recv_rate_per_sec", JInt 2048);
   ("bytes_sent_rate_per_sec", JInt 512);
   ("bytes_recv_gauge", JInt 5368709120);
   ("bytes_sent_gauge", JInt 1048576);
   ("speed", JInt 1073741824)].

Definition example_memory : list (string * json) :=
  [("total", JInt 8589934592); ("used", JInt 1073741824);
   ("free", JInt 7516192768); ("percent", JInt 12)].

Definition example_swap : list (string * json) :=
  [("total", JInt 2147483648); ("used", JInt 1024); ("free", JInt 2147482624);
   ("percent", JInt 0)].

Definition example_filesystem : list (string * json) :=
  [("mnt_point", JStr "/"); ("device_name", JStr "/dev/sda1");
   ("size", JInt 107374182400); ("used", JInt 53687091200);
   ("free", JInt 53687091200); ("percent", JInt 50)].


Definition example_pages : list (string * json) :=
  [ ("http://192.168.1.10:61208/api/4/all", JDict [("cpu", JDict [("total", JInt 7)])]);
    ("http://192.168.1.10:61208/api/4/system",
     JDict [("hostname", JStr "web01"); ("os_name", JStr "Linux");
            ("os_version", JStr "6.1")]);
    ("http://192.168.1.10:61208/api/4/cpu",
     JDict [("total", JInt 7); ("user", JInt 4); ("system", JInt 3);
            ("idle", JInt 93)]);
    ("http://192.168.1.10:61208/api/4/mem", JDict example_memory);
    ("http://192.168.1.10:61208/api/4/memswap", JDict example_swap);
    ("http://192.168.1.10:61208/api/4/diskio",
     JDict [("sda", JDict [("read_bytes", JInt 1048576);
                           ("write_bytes", JInt 524288)])]);
    ("http://192.168.1.10:61208/api/4/fs", JList [JDict example_filesystem]);
    ("http://192.168.1.10:61208/api/4/network", JList [JDict example_interface]);
    ("http://192.168.1.10:61208/api/4/uptime", JInt 90000) ].

Definition example_agent : adapter :=
  {| http_get := fun url => assoc url example_pages; http_post := fun _ => true |}.

(* ===================================================================== *)
(** ** Formatters and tools *)
(* ===================================================================== *)

Section Tools.

Variable py : interpreter.

Fixpoint py_repr (v : json) : string :=
  match v with
  | JNull => "None"
  | JBool true => "True"
  | JBool false => "False"
  | JInt n => str_int n
  | JFloat f => float_repr py f
  | JStr s => str_repr py s
  | JList l => "[" +:+ join ", " (List.map py_repr l) +:+ "]"
  | JDict d =>
      "{" +:+ join ", "
                (List.map (fun kv => str_repr py (fst kv) +:+ ": " +:+ py_repr (snd kv)) d)
          +:+ "}"
  end.

(** [f"{v}"], that is [str(v)]. *)
Definition py_str (v : json) : string :=
  match v with
  | JStr s => s
  | _ => py_repr v
  end.

(** [int(v)] *)
Definition py_int (v : json) : result Z :=
  match v with
  | JInt n => Ok n
  | JBool b => Ok (Z_of_bool b)
  | JFloat f => float_trunc f
  | JStr s =>
      match int_of_str py s with
      | Some n => Ok n
      | None => Raise (ValueError (int_error_text py s))
      end
  | _ => Raise TypeError
  end.

(** [f"{v / 1024 / 1024:.2f}"] *)
Definition fmt_mb (v : json) : result string :=
  a ← py_truediv v 1024; b ← py_truediv a 1024; fmt2f b.

(** [f"{v / 1024 / 1024 / 1024:.2f}"] *)
Definition fmt_gb (v : json) : result string :=
  a ← py_truediv v 1024; b ← py_truediv a 1024; c ← py_truediv b 1024; fmt2f c.

Definition format_system_info (data : json) : result string :=
  hostname ← py_get data "hostname" (JStr "Unknown");
  os_name ← py_get data "os_name" (JStr "Unknown");
  os_version ← py_get data "os_version" (JStr "");
  cpu ← py_get data "cpu" (JDict []);
  cpu_total ← py_get cpu "total" (JInt 0);
  mem ← py_get data "mem" (JDict []);
  mem_percent ← py_get mem "percent" (JInt 0);
  diskio ← py_get data "diskio" (JDict []);
  diskio_percent ← py_get diskio "percent" (JInt 0);
  Ok (nl +:+ "系统信息:" +:+ nl
      +:+ "主机名: " +:+ py_str hostname +:+ nl
      +:+ "操作系统: " +:+ py_str os_name +:+ " " +:+ py_str os_version +:+ nl
      +:+ "CPU使用率: " +:+ py_str cpu_total +:+ "%" +:+ nl
      +:+ "内存使用率: " +:+ py_str mem_percent +:+ "%" +:+ nl
      +:+ "磁盘使用率: " +:+ py_str diskio_percent +:+ "%" +:+ nl).

Definition format_process_info (processes : json) : result string :=
  first5 ← py_slice processes 5;
  procs ← py_iter first5;
  for_loop (enumerate procs)
    (fun result '(i, proc) =>
       name ← py_get proc "name" (JStr "Unknown");
       pid ← py_get proc "pid" (JStr "Unknown");
       cpu_percent ← py_get proc "cpu_percent" (JInt 0);
       memory_percent ← py_get proc "memory_percent" (JInt 0);
       Ok (result +:+ nl
           +:+ str_int (i + 1) +:+ ". " +:+ py_str name
           +:+ " (PID: " +:+ py_str pid +:+ ")" +:+ nl
           +:+ "   CPU: " +:+ py_str cpu_percent +:+ "%" +:+ nl
           +:+ "   内存: " +:+ py_str memory_percent +:+ "%" +:+ nl))
    ("进程信息 (前5个):" +:+ nl).

Definition format_alert_info (alerts : json) : result string :=
  if negb (truthy alerts) then Ok "当前没有告警信息"
  else
    items ← py_iter alerts;
    for_loop items
      (fun result alert =>
         type ← py_get alert "type" (JStr "Unknown");
         state ← py_get alert "state" (JStr "Unknown");
         begin ← py_get alert "begin" (JStr "Unknown");
         end0 ← py_get alert "end" JNull;
         dflt ← (if py_eq_int end0 (-1) then Ok (JStr "-1")
                 else py_get alert "end" (JStr "Unknown"));
         end1 ← py_get alert "end" dflt;
         desc ← py_get alert "desc" (JStr "No description");
         Ok (result +:+ nl
             +:+ "类型: " +:+ py_str type +:+ nl
             +:+ "状态: " +:+ py_str state +:+ nl
             +:+ "开始时间: " +:+ py_str begin +:+ nl
             +:+ "结束时间: " +:+ py_str end1 +:+ nl
             +:+ "描述: " +:+ py_str desc +:+ nl))
      ("告警信息:" +:+ nl).

Definition format_cpu_info (data : json) : result string :=
  total ← py_get data "total" (JInt 0);
  user ← py_get data "user" (JInt 0);
  system ← py_get data "system" (JInt 0);
  idle ← py_get data "idle" (JInt 0);
  iowait ← py_get data "iowait" (JInt 0);
  Ok (nl +:+ "CPU信息:" +:+ nl
      +:+ "总使用率: " +:+ py_str total +:+ "%" +:+ nl
      +:+ "用户空间: " +:+ py_str user +:+ "%" +:+ nl
      +:+ "系统空间: " +:+ py_str system +:+ "%" +:+ nl
      +:+ "空闲: " +:+ py_str idle +:+ "%" +:+ nl
      +:+ "I/O等待: " +:+ py_str iowait +:+ "%" +:+ nl).

Definition format_memory_info (data : json) : result string :=
  total ← py_get data "total" (JInt 0);
  total_mb ← fmt_mb total;
  used ← py_get data "used" (JInt 0);
  used_mb ← fmt_mb used;
  free ← py_get data "free" (JInt 0);
  free_mb ← fmt_mb free;
  percent ← py_get data "percent" (JInt 0);
  Ok (nl +:+ "内存信息:" +:+ nl
      +:+ "总内存: " +:+ total_mb +:+ " MB" +:+ nl
      +:+ "已使用: " +:+ used_mb +:+ " MB" +:+ nl
      +:+ "空闲: " +:+ free_mb +:+ " MB" +:+ nl
      +:+ "使用率: " +:+ py_str percent +:+ "%" +:+ nl).

Definition format_disk_info (data : json) : result string :=
  items ← py_items data;
  for_loop items
    (fun result '(disk, info) =>
       read_bytes ← py_get info "read_bytes" (JInt 0);
       read_mb ← fmt_mb read_bytes;
       write_bytes ← py_get info "write_bytes" (JInt 0);
       write_mb ← fmt_mb write_bytes;
       Ok (result +:+ nl
           +:+ "设备: " +:+ disk +:+ nl
           +:+ "  读取: " +:+ read_mb +:+ " MB" +:+ nl
           +:+ "  写入: " +:+ write_mb +:+ " MB" +:+ nl))
    ("磁盘I/O信息:" +:+ nl).

Definition format_sensors_info (data : json) : result string :=
  items ← py_items data;
  for_loop items
    (fun result '(sensor_type, sensors) =>
       let result := result +:+ nl +:+ sensor_type +:+ ":" +:+ nl in
       match sensors with
       | JList l =>
           for_loop l
             (fun result sensor =>
                label ← py_get sensor "label" (JStr "Unknown");
                value ← py_get sensor "value" (JInt 0);
                unit ← py_get sensor "unit" (JStr "");
                Ok (result +:+ "  " +:+ py_str label +:+ ": " +:+ py_str value
                    +:+ " " +:+ py_str unit +:+ nl))
             result
       | JDict _ =>
           value ← py_get sensors "value" (JInt 0);
           unit ← py_get sensors "unit" (JStr "");
           Ok (result +:+ "  值: " +:+ py_str value +:+ " " +:+ py_str unit +:+ nl)
       | _ => Ok result
       end)
    ("传感器信息:" +:+ nl).

Definition format_docker_info (containers : json) : result string :=
  if negb (truthy containers) then Ok "没有运行中的Docker容器"
  else
    items ← py_iter containers;
    for_loop items
      (fun result container =>
         id ← py_get container "id" (JStr "Unknown");
         id12 ← py_slice id 12;
         name ← py_get container "name" (JStr "Unknown");
         image ← py_get container "image" (JList [JStr "Unknown"]);
         image0 ← py_index0 image;
         status ← py_get container "status" (JStr "Unknown");
         cpu_percent ← py_get container "cpu_percent" (JInt 0);
         memory_percent ← py_get container "memory_percent" (JInt 0);
         Ok (result +:+ nl
             +:+ "容器ID: " +:+ py_str id12 +:+ nl
             +:+ "名称: " +:+ py_str name +:+ nl
             +:+ "镜像: " +:+ py_str image0 +:+ nl
             +:+ "状态: " +:+ py_str status +:+ nl
             +:+ "CPU使用率: " +:+ py_str cpu_percent +:+ "%" +:+ nl
             +:+ "内存使用率: " +:+ py_str memory_percent +:+ "%" +:+ nl))
      ("Docker容器信息:" +:+ nl).

Definition format_gpu_info (data : json) : result string :=
  if negb (truthy data) then Ok "没有检测到GPU或GPU信息不可用"
  else
    items ← py_iter data;
    for_loop items
      (fun result gpu =>
         gpu_id ← py_get gpu "gpu_id" (JStr "Unknown");
         name ← py_get gpu "name" (JStr "Unknown");
         temperature ← py_get gpu "temperature" (JInt 0);
         proc ← py_get gpu "proc" (JInt 0);
         mem ← py_get gpu "mem" (JInt 0);
         fan_speed ← py_get gpu "fan_speed" (JInt 0);
         Ok (result +:+ nl
             +:+ "GPU ID: " +:+ py_str gpu_id +:+ nl
             +:+ "名称: " +:+ py_str name +:+ nl
             +:+ "温度: " +:+ py_str temperature +:+ "°C" +:+ nl
             +:+ "处理器使用率: " +:+ py_str proc +:+ "%" +:+ nl
             +:+ "内存使用率: " +:+ py_str mem +:+ "%" +:+ nl
             +:+ "风扇转速: " +:+ py_str fan_speed +:+ " RPM" +:+ nl))
      ("GPU信息:" +:+ nl).

Definition format_process_count (data : json) : result string :=
  total ← py_get data "total" (JInt 0);
  running ← py_get data "running" (JInt 0);
  sleeping ← py_get data "sleeping" (JInt 0);
  other ← py_get data "other" (JInt 0);
  thread ← py_get data "thread" (JInt 0);
  Ok (nl +:+ "进程统计:" +:+ nl
      +:+ "总数: " +:+ py_str total +:+ nl
      +:+ "运行中: " +:+ py_str running +:+ nl
      +:+ "休眠: " +:+ py_str sleeping +:+ nl
      +:+ "其他: " +:+ py_str other +:+ nl
      +:+ "线程: " +:+ py_str thread +:+ nl).

Definition format_connections_info (data : json) : result string :=
  established ← py_get data "ESTABLISHED" (JInt 0);
  listen ← py_get data "LISTEN" (JInt 0);
  syn_sent ← py_get data "SYN_SENT" (JInt 0);
  syn_recv ← py_get data "SYN_RECV" (JInt 0);
  initiated ← py_get data "initiated" (JInt 0);
  terminated ← py_get data "terminated" (JInt 0);
  Ok (nl +:+ "网络连接统计:" +:+ nl
      +:+ "已建立连接: " +:+ py_str established +:+ nl
      +:+ "监听端口: " +:+ py_str listen +:+ nl
      +:+ "等待连接: " +:+ py_str syn_sent +:+ nl
      +:+ "接收连接: " +:+ py_str syn_recv +:+ nl
      +:+ "已发起连接: " +:+ py_str initiated +:+ nl
      +:+ "已终止连接: " +:+ py_str terminated +:+ nl).

Definition format_ip_info (data : json) : result string :=
  items ← py_items data;
  for_loop items
    (fun result '(interface, addresses) =>
       addrs ← py_iter addresses;
       for_loop addrs
         (fun result addr =>
            address ← py_get addr "address" (JStr "Unknown");
            family ← py_get addr "family" (JStr "Unknown");
            Ok (result +:+ "  " +:+ py_str address +:+ " (" +:+ py_str family
                +:+ ")" +:+ nl))
         (result +:+ nl +:+ interface +:+ ":" +:+ nl))
    ("IP地址信息:" +:+ nl).

(** The unit loop of [format_bytes]: [units] are the labels still to try. *)
Fixpoint format_bytes_loop (units : list string) (bytes_value : json)
  : result string :=
  match units with
  | [] => s ← fmt2f bytes_value; Ok (s +:+ " PB")
  | unit :: rest =>
      below ← py_lt bytes_value 1024;
      if (below : bool) then s ← fmt2f bytes_value; Ok (s +:+ " " +:+ unit)
      else
        bytes_value ← py_truediv bytes_value 1024;
        format_bytes_loop rest bytes_value
  end.

Definition format_bytes (bytes_value : json) : result string :=
  format_bytes_loop ["B"; "KB"; "MB"; "GB"; "TB"] bytes_value.

Definition format_bytes_rate (bytes_per_sec : json) : result string :=
  format_bytes bytes_per_sec.

(** [', '.join(data)]: every item has to be a [str]. *)
Fixpoint str_items (items : list json) : result (list string) :=
  match items with
  | [] => Ok []
  | JStr s :: rest => ss ← str_items rest; Ok (s :: ss)
  | _ :: _ => Raise TypeError
  end.

Definition py_join (sep : string) (data : json) : result string :=
  items ← py_iter data;
  ss ← str_items items;
  Ok (join sep ss).

(** *** The telemetry tools

    Every tool takes the optional [server_id] argument, reads the globals
    [st] and talks to the agents [w]. *)

Definition get_system_info (server_id : option string) (st : state) (w : adapter)
  : result string :=
  except_ValueError
    (data ← make_glances_request "system" server_id st w;
     if negb (truthy data)
     then Ok ("无法获取服务器 '" +:+ str_server_id server_id +:+ "' 的系统信息。")
     else
       srv ← SERVERS_getitem st server_id;
       text ← format_system_info data;
       Ok ("服务器 '" +:+ srv_name srv +:+ "' 的系统信息:" +:+ nl +:+ text)).

Definition get_process_info (server_id : option string) (st : state) (w : adapter)
  : result string :=
  except_ValueError
    (data ← make_glances_request "processlist" server_id st w;
     if negb (truthy data)
     then Ok ("无法获取服务器 '" +:+ str_server_id server_id +:+ "' 的进程信息。")
     else
       srv ← SERVERS_getitem st server_id;
       text ← format_process_info data;
       Ok ("服务器 '" +:+ srv_name srv +:+ "' 的进程信息:" +:+ nl +:+ text)).

Definition get_network_info (server_id : option string) (st : state) (w : adapter)
  : result string :=
  data ← make_glances_request "network" server_id st w;
  if negb (truthy data) then Ok "无法获取网络信息。"
  else
    interfaces ← py_iter data;
    for_loop interfaces
      (fun result interface =>
         interface_name ← py_get interface "interface_name" (JStr "unknown");
         recv_rate ← py_get interface "bytes_recv_rate_per_sec" (JInt 0);
         sent_rate ← py_get interface "bytes_sent_rate_per_sec" (JInt 0);
         total_recv ← py_get interface "bytes_recv_gauge" (JInt 0);
         total_sent ← py_get interface "bytes_sent_gauge" (JInt 0);
         speed ← py_get interface "speed" (JInt 0);
         speed_gbps ← py_truediv speed (1024 * 1024 * 1024);
         speed_text ← fmt2f speed_gbps;
         recv_rate_text ← format_bytes_rate recv_rate;
         sent_rate_text ← format_bytes_rate sent_rate;
         total_recv_text ← format_bytes total_recv;
         total_sent_text ← format_bytes total_sent;
         Ok (result +:+ nl
             +:+ "接口: " +:+ py_str interface_name +:+ nl
             +:+ "  链接速度: " +:+ speed_text +:+ " Gbps" +:+ nl
             +:+ "  当前速率:" +:+ nl
             +:+ "    接收: " +:+ recv_rate_text +:+ "/s" +:+ nl
             +:+ "    发送: " +:+ sent_rate_text +:+ "/s" +:+ nl
             +:+ "  总流量:" +:+ nl
             +:+ "    接收: " +:+ total_recv_text +:+ nl
             +:+ "    发送: " +:+ total_sent_text +:+ nl))
      ("网络信息:" +:+ nl).

(** The only tool that tests [data is None] instead of [not data]. *)
Definition get_alert_info (server_id : option string) (st : state) (w : adapter)
  : result string :=
  data ← make_glances_request "alert" server_id st w;
  match data with
  | JNull => Ok "无法获取告警信息。"
  | _ => format_alert_info data
  end.

Definition clear_all_alerts (server_id : option string) (st : state) (w : adapter)
  : result string :=
  success ← make_glances_post_request "events/clear/all" server_id st w;
  Ok (if (success : bool) then "已成功清除所有告警。" else "清除告警失败。").

Definition get_cpu_info (server_id : option string) (st : state) (w : adapter)
  : result string :=
  data ← make_glances_request "cpu" server_id st w;
  if negb (truthy data) then Ok "无法获取CPU信息。"
  else format_cpu_info data.

Definition get_memory_info (server_id : option string) (st : state) (w : adapter)
  : result string :=
  data ← make_glances_request "mem" server_id st w;
  if negb (truthy data) then Ok "无法获取内存信息。"
  else format_memory_info data.

Definition get_disk_io_info (server_id : option string) (st : state) (w : adapter)
  : result string :=
  data ← make_glances_request "diskio" server_id st w;
  if negb (truthy data) then Ok "无法获取磁盘I/O信息。"
  else format_disk_info data.

Definition get_plugins_list (server_id : option string) (st : state) (w : adapter)
  : result string :=
  data ← make_glances_request "pluginslist" server_id st w;
  if negb (truthy data) then Ok "无法获取插件列表。"
  else
    joined ← py_join ", " data;
    Ok ("已启用的插件:" +:+ nl +:+ joined).

Definition get_sensors_info (server_id : option string) (st : state) (w : adapter)
  : result string :=
  data ← make_glances_request "sensors" server_id st w;
  if negb (truthy data) then Ok "无法获取传感器信息。"
  else format_sensors_info data.

Definition get_docker_info (server_id : option string) (st : state) (w : adapter)
  : result string :=
  data ← make_glances_request "containers" server_id st w;
  if negb (truthy data) then Ok "无法获取Docker容器信息。"
  else format_docker_info data.

Definition get_gpu_info (server_id : option string) (st : state) (w : adapter)
  : result string :=
  data ← make_glances_request "gpu" server_id st w;
  if negb (truthy data) then Ok "无法获取GPU信息。"
  else format_gpu_info data.

Definition get_quicklook (server_id : option string) (st : state) (w : adapter)
  : result string :=
  data ← make_glances_request "quicklook" server_id st w;
  if negb (truthy data) then Ok "无法获取系统概览信息。"
  else
    cpu ← py_get data "cpu" (JInt 0);
    mem ← py_get data "mem" (JInt 0);
    swap ← py_get data "swap" (JInt 0);
    load ← py_get data "load" (JStr "0 0 0");
    Ok (nl +:+ "系统概览:" +:+ nl
        +:+ "CPU: " +:+ py_str cpu +:+ "%" +:+ nl
        +:+ "内存: " +:+ py_str mem +:+ "%" +:+ nl
        +:+ "交换分区: " +:+ py_str swap +:+ "%" +:+ nl
        +:+ "系统负载: " +:+ py_str load +:+ nl).

Definition get_fs_info (server_id : option string) (st : state) (w : adapter)
  : result string :=
  data ← make_glances_request "fs" server_id st w;
  if negb (truthy data) then Ok "无法获取文件系统信息。"
  else
    filesystems ← py_iter data;
    for_loop filesystems
      (fun result fs =>
         mnt_point ← py_get fs "mnt_point" (JStr "Unknown");
         device_name ← py_get fs "device_name" (JStr "Unknown");
         size ← py_get fs "size" (JInt 0);
         size_gb ← fmt_gb size;
         used ← py_get fs "used" (JInt 0);
         used_gb ← fmt_gb used;
         free ← py_get fs "free" (JInt 0);
         free_gb ← fmt_gb free;
         percent ← py_get fs "percent" (JInt 0);
         Ok (result +:+ nl
             +:+ "挂载点: " +:+ py_str mnt_point +:+ nl
             +:+ "设备: " +:+ py_str device_name +:+ nl
             +:+ "总空间: " +:+ size_gb +:+ " GB" +:+ nl
             +:+ "已用: " +:+ used_gb +:+ " GB" +:+ nl
             +:+ "可用: " +:+ free_gb +:+ " GB" +:+ nl
             +:+ "使用率: " +:+ py_str percent +:+ "%" +:+ nl))
      ("文件系统信息:" +:+ nl).

Definition get_uptime (server_id : option string) (st : state) (w : adapter)
  : result string :=
  data ← make_glances_request "uptime" server_id st w;
  if negb (truthy data) then Ok "无法获取系统运行时间。"
  else
    seconds ← py_int data;
    let days := seconds / 86400 in
    let hours := (seconds mod 86400) / 3600 in
    let minutes := (seconds mod 3600) / 60 in
    Ok ("系统已运行: " +:+ str_int days +:+ "天 " +:+ str_int hours +:+ "小时 "
        +:+ str_int minutes +:+ "分钟").

Definition get_all_stats (server_id : option string) (st : state) (w : adapter)
  : result string :=
  except_ValueError
    (data ← make_glances_request "all" server_id st w;
     if negb (truthy data)
     then Ok ("无法获取服务器 '" +:+ str_server_id server_id +:+ "' 的系统统计信息。")
     else
       srv ← SERVERS_getitem st server_id;
       let result := "服务器 '" +:+ srv_name srv +:+ "' 的统计信息汇总:" +:+ nl in
       system ← get_system_info server_id st w;
       let result := result +:+ system in
       cpu ← get_cpu_info server_id st w;
       let result := result +:+ (nl +:+ cpu) in
       memory ← get_memory_info server_id st w;
       let result := result +:+ (nl +:+ memory) in
       disk_io ← get_disk_io_info server_id st w;
       let result := result +:+ (nl +:+ disk_io) in
       network ← get_network_info server_id st w;
       let result := result +:+ (nl +:+ network) in
       uptime ← get_uptime server_id st w;
       let result := result +:+ (nl +:+ uptime) in
       Ok result).

Definition get_process_count (server_id : option string) (st : state) (w : adapter)
  : result string :=
  data ← make_glances_request "processcount" server_id st w;
  if negb (truthy data) then Ok "无法获取进程统计信息。"
  else format_process_count data.

Definition get_connections_stats (server_id : option string) (st : state)
    (w : adapter) : result string :=
  data ← make_glances_request "connections" server_id st w;
  if negb (truthy data) then Ok "无法获取网络连接统计信息。"
  else format_connections_info data.

Definition get_ip_addresses (server_id : option string) (st : state) (w : adapter)
  : result string :=
  data ← make_glances_request "ip" server_id st w;
  if negb (truthy data) then Ok "无法获取IP地址信息。"
  else format_ip_info data.

Definition get_load_average (server_id : option string) (st : state) (w : adapter)
  : result string :=
  data ← make_glances_request "load" server_id st w;
  if negb (truthy data) then Ok "无法获取系统负载信息。"
  else
    min1 ← py_get data "min1" (JInt 0);
    min1_text ← fmt2f min1;
    min5 ← py_get data "min5" (JInt 0);
    min5_text ← fmt2f min5;
    min15 ← py_get data "min15" (JInt 0);
    min15_text ← fmt2f min15;
    cpucore ← py_get data "cpucore" (JInt 0);
    Ok (nl +:+ "系统负载:" +:+ nl
        +:+ "1分钟: " +:+ min1_text +:+ nl
        +:+ "5分钟: " +:+ min5_text +:+ nl
        +:+ "15分钟: " +:+ min15_text +:+ nl
        +:+ "CPU核心数: " +:+ py_str cpucore +:+ nl).

Definition get_swap_info (server_id : option string) (st : state) (w : adapter)
  : result string :=
  data ← make_glances_request "memswap" server_id st w;
  if negb (truthy data) then Ok "无法获取交换分区信息。"
  else
    total ← py_get data "total" (JInt 0);
    total_mb ← fmt_mb total;
    used ← py_get data "used" (JInt 0);
    used_mb ← fmt_mb used;
    free ← py_get data "free" (JInt 0);
    free_mb ← fmt_mb free;
    percent ← py_get data "percent" (JInt 0);
    Ok (nl +:+ "交换分区信息:" +:+ nl
        +:+ "总大小: " +:+ total_mb +:+ " MB" +:+ nl
        +:+ "已使用: " +:+ used_mb +:+ " MB" +:+ nl
        +:+ "空闲: " +:+ free_mb +:+ " MB" +:+ nl
        +:+ "使用率: " +:+ py_str percent +:+ "%" +:+ nl).

Definition get_version_info (server_id : option string) (st : state) (w : adapter)
  : result string :=
  data ← make_glances_request "version" server_id st w;
  if negb (truthy data) then Ok "无法获取版本信息。"
  else
    version ← py_get data "version" (JStr "Unknown");
    system ← py_get data "system" (JStr "Unknown");
    python_version ← py_get data "python_version" (JStr "Unknown");
    Ok (nl +:+ "Glances版本信息:" +:+ nl
        +:+ "版本号: " +:+ py_str version +:+ nl
        +:+ "系统: " +:+ py_str system +:+ nl
        +:+ "Python版本: " +:+ py_str python_version +:+ nl).

Definition get_process_list (server_id : option string) (st : state) (w : adapter)
  : result string :=
  data ← make_glances_request "processlist" server_id st w;
  if negb (truthy data)
  then Ok ("无法获取服务器 '" +:+ str_server_id server_id +:+ "' 的进程列表信息。")
  else
    procs ← py_iter data;
    for_loop procs
      (fun result proc =>
         pid ← py_get proc "pid" (JStr "Unknown");
         name ← py_get proc "name" (JStr "Unknown");
         cmdline ← py_get proc "cmdline" (JStr "Unknown");
         username ← py_get proc "username" (JStr "Unknown");
         num_threads ← py_get proc "num_threads" (JInt 0);
         cpu_percent ← py_get proc "cpu_percent" (JInt 0);
         memory_percent ← py_get proc "memory_percent" (JInt 0);
         Ok (result +:+ nl
             +:+ "PID: " +:+ py_str pid +:+ nl
             +:+ "名称: " +:+ py_str name +:+ nl
             +:+ "命令行: " +:+ py_str cmdline +:+ nl
             +:+ "用户名: " +:+ py_str username +:+ nl
             +:+ "线程数: " +:+ py_str num_threads +:+ nl
             +:+ "CPU使用率: " +:+ py_str cpu_percent +:+ "%" +:+ nl
             +:+ "内存使用率: " +:+ py_str memory_percent +:+ "%" +:+ nl))
      ("进程信息:" +:+ nl).

(** *** The telemetry tools as one family

    The tools that fetch with a GET, with their endpoint and the text each
    returns when [not data] holds. *)
Inductive tool :=
| GetSystemInfo | GetProcessInfo | GetNetworkInfo | GetAlertInfo | GetCpuInfo
| GetMemoryInfo | GetDiskIoInfo | GetPluginsList | GetSensorsInfo
| GetDockerInfo | GetGpuInfo | GetQuicklook | GetFsInfo | GetUptime
| GetAllStats | GetProcessCount | GetConnectionsStats | GetIpAddresses
| GetLoadAverage | GetSwapInfo | GetVersionInfo | GetProcessList.

#[global] Instance tool_eq_dec : EqDecision tool.
Proof. solve_decision. Defined.

Definition call (t : tool) : option string -> state -> adapter -> result string :=
  match t with
  | GetSystemInfo => get_system_info
  | GetProcessInfo => get_process_info
  | GetNetworkInfo => get_network_info
  | GetAlertInfo => get_alert_info
  | GetCpuInfo => get_cpu_info
  | GetMemoryInfo => get_memory_info
  | GetDiskIoInfo => get_disk_io_info
  | GetPluginsList => get_plugins_list
  | GetSensorsInfo => get_sensors_info
  | GetDockerInfo => get_docker_info
  | GetGpuInfo => get_gpu_info
  | GetQuicklook => get_quicklook
  | GetFsInfo => get_fs_info
  | GetUptime => get_uptime
  | GetAllStats => get_all_stats
  | GetProcessCount => get_process_count
  | GetConnectionsStats => get_connections_stats
  | GetIpAddresses => get_ip_addresses
  | GetLoadAverage => get_load_average
  | GetSwapInfo => get_swap_info
  | GetVersionInfo => get_version_info
  | GetProcessList => get_process_list
  end.

Definition endpoint (t : tool) : string :=
  match t with
  | GetSystemInfo => "system"
  | GetProcessInfo => "processlist"
  | GetNetworkInfo => "network"
  | GetAlertInfo => "alert"
  | GetCpuInfo => "cpu"
  | GetMemoryInfo => "mem"
  | GetDiskIoInfo => "diskio"
  | GetPluginsList => "pluginslist"
  | GetSensorsInfo => "sensors"
  | GetDockerInfo => "containers"
  | GetGpuInfo => "gpu"
  | GetQuicklook => "quicklook"
  | GetFsInfo => "fs"
  | GetUptime => "uptime"
  | GetAllStats => "all"
  | GetProcessCount => "processcount"
  | GetConnectionsStats => "connections"
  | GetIpAddresses => "ip"
  | GetLoadAverage => "load"
  | GetSwapInfo => "memswap"
  | GetVersionInfo => "version"
  | GetProcessList => "processlist"
  end.

Definition unavailable (t : tool) (server_id : option string) : string :=
  match t with
  | GetSystemInfo => "无法获取服务器 '" +:+ str_server_id server_id +:+ "' 的系统信息。"
  | GetProcessInfo => "无法获取服务器 '" +:+ str_server_id server_id +:+ "' 的进程信息。"
  | GetNetworkInfo => "无法获取网络信息。"
  | GetAlertInfo => "无法获取告警信息。"
  | GetCpuInfo => "无法获取CPU信息。"
  | GetMemoryInfo => "无法获取内存信息。"
  | GetDiskIoInfo => "无法获取磁盘I/O信息。"
  | GetPluginsList => "无法获取插件列表。"
  | GetSensorsInfo => "无法获取传感器信息。"
  | GetDockerInfo => "无法获取Docker容器信息。"
  | GetGpuInfo => "无法获取GPU信息。"
  | GetQuicklook => "无法获取系统概览信息。"
  | GetFsInfo => "无法获取文件系统信息。"
  | GetUptime => "无法获取系统运行时间。"
  | GetAllStats => "无法获取服务器 '" +:+ str_server_id server_id +:+ "' 的系统统计信息。"
  | GetProcessCount => "无法获取进程统计信息。"
  | GetConnectionsStats => "无法获取网络连接统计信息。"
  | GetIpAddresses => "无法获取IP地址信息。"
  | GetLoadAverage => "无法获取系统负载信息。"
  | GetSwapInfo => "无法获取交换分区信息。"
  | GetVersionInfo => "无法获取版本信息。"
  | GetProcessList => "无法获取服务器 '" +:+ str_server_id server_id +:+ "' 的进程列表信息。"
  end.

(** The tools whose body sits in [try: ... except ValueError]. *)
Definition catches_ValueError (t : tool) : bool :=
  match t with
  | GetSystemInfo | GetProcessInfo | GetAllStats => true
  | _ => false
  end.

(** The registry entry a call is aimed at: the one of [server_id], or of
    the default id when the argument is omitted. *)
Definition target (st : state) (server_id : option string) : option server :=
  SERVERS st !! match server_id with
                | None => get_default_server_id st
                | Some i => i
                end.

(** *** The formatters as one family *)
Inductive formatter :=
| FormatSystemInfo | FormatProcessInfo | FormatAlertInfo | FormatCpuInfo
| FormatMemoryInfo | FormatDiskInfo | FormatSensorsInfo | FormatDockerInfo
| FormatGpuInfo | FormatProcessCount | FormatConnectionsInfo | FormatIpInfo.

Definition format (f : formatter) : json -> result string :=
  match f with
  | FormatSystemInfo => format_system_info
  | FormatProcessInfo => format_process_info
  | FormatAlertInfo => format_alert_info
  | FormatCpuInfo => format_cpu_info
  | FormatMemoryInfo => format_memory_info
  | FormatDiskInfo => format_disk_info
  | FormatSensorsInfo => format_sensors_info
  | FormatDockerInfo => format_docker_info
  | FormatGpuInfo => format_gpu_info
  | FormatProcessCount => format_process_count
  | FormatConnectionsInfo => format_connections_info
  | FormatIpInfo => format_ip_info
  end.

(** The shape each formatter's template expects of its input.  A field
    may always be absent; when present it has to support the operation the
    template applies to it. *)
Definition is_dict (v : json) : bool :=
  match v with JDict _ => true | _ => false end.


(** A number within the range of a float: any float or bool, and the
    integers of magnitude below 2^1000. *)
Definition in_float_range (v : json) : bool :=
  match v with
  | JFloat _ | JBool _ => true
  | JInt n => Z.abs n <? 2 ^ 1000
  | _ => false
  end.





(** *** What the specification describes, for comparison *)

(** The value after [k] divisions by 1024. *)
Fixpoint divide_1024 (k : nat) (v : json) : result json :=
  match k with
  | O => Ok v
  | S k' => q ← py_truediv v 1024; divide_1024 k' q
  end.

Definition byte_units : list string := ["B"; "KB"; "MB"; "GB"; "TB"; "PB"].

(** The value after [k] divisions by 1024, printed with two decimals. *)
Definition scaled (k : nat) (v : json) : result string :=
  q ← divide_1024 k v; fmt2f q.

(** Whether the value after [k] divisions is below 1024. *)
Definition below_1024 (k : nat) (v : json) : result bool :=
  q ← divide_1024 k v; py_lt q 1024.

(** [d.get(k, 0)] *)
Definition field (k : string) (d : list (string * json)) : json :=
  default (JInt 0) (assoc k d).

(** The memory report if its byte counts went through [format_bytes], as
    the specification's unit rule reads. *)
Definition memory_info_in_scaled_units (data : json) : result string :=
  total ← py_get data "total" (JInt 0);
  total_text ← format_bytes total;
  used ← py_get data "used" (JInt 0);
  used_text ← format_bytes used;
  free ← py_get data "free" (JInt 0);
  free_text ← format_bytes free;
  percent ← py_get data "percent" (JInt 0);
  Ok (nl +:+ "内存信息:" +:+ nl
      +:+ "总内存: " +:+ total_text +:+ nl
      +:+ "已使用: " +:+ used_text +:+ nl
      +:+ "空闲: " +:+ free_text +:+ nl
      +:+ "使用率: " +:+ py_str percent +:+ "%" +:+ nl).

(** The six sub-reports joined by newlines and nothing else, as the
    specification's sentence on [get_all_stats] reads. *)
Definition joined_sub_reports (server_id : option string) (st : state)
    (w : adapter) : result string :=
  system ← get_system_info server_id st w;
  cpu ← get_cpu_info server_id st w;
  memory ← get_memory_info server_id st w;
  disk_io ← get_disk_io_info server_id st w;
  network ← get_network_info server_id st w;
  uptime ← get_uptime server_id st w;
  Ok (system +:+ nl +:+ cpu +:+ nl +:+ memory +:+ nl +:+ disk_io +:+ nl
      +:+ network +:+ nl +:+ uptime).

(** The header line [get_all_stats] puts before the sub-reports. *)
Definition all_stats_header (srv : server) : string :=
  "服务器 '" +:+ srv_name srv +:+ "' 的统计信息汇总:" +:+ nl.

End Tools.

(* ===================================================================== *)
(** ** Further notions for the properties below *)
(* ===================================================================== *)

(** [needle] occurs somewhere in [haystack]. *)
Definition occurs_in (needle haystack : string) : Prop :=
  exists pre post, haystack = pre +:+ needle +:+ post.

(** [p] is the beginning of [s]. *)
Definition starts_with (p s : string) : Prop := exists rest, s = p +:+ rest.

(** Every operation of the sequence spares the default that is current
    when the operation runs. *)
Fixpoint spare_default (ops : list registry_op) (st : state) : Prop :=
  match ops with
  | [] => True
  | op :: rest => spares_default op st /\ spare_default rest (snd (run_op op st))
  end.

Definition is_set_default (op : registry_op) : bool :=
  match op with OpSetDefault _ => true | _ => false end.

(** The tools whose text or lookups use the [server_id] argument itself,
    after the request. *)
Definition uses_server_id_argument (t : tool) : bool :=
  match t with
  | GetSystemInfo | GetProcessInfo | GetAllStats | GetProcessList => true
  | _ => false
  end.

(** The tools that index [SERVERS[server_id]] once data has arrived. *)
Definition indexes_SERVERS (t : tool) : bool :=
  match t with
  | GetSystemInfo | GetProcessInfo | GetAllStats => true
  | _ => false
  end.

(** The agents [w], except that a GET of [url] returns [body]. *)
Definition with_page (w : adapter) (url : string) (body : json) : adapter :=
  {| http_get := fun u => if String.eqb u url then Some body else http_get w u;
     http_post := http_post w |}.

(** The example agent with an uptime given as text, as [glances] prints it. *)
Definition example_agent_text_uptime : adapter :=
  with_page example_agent "http://192.168.1.10:61208/api/4/uptime"
    (JStr "1 day, 2:03:04").

(** [f] applied to every element in order, stopping at the first failure. *)
Fixpoint map_result {A B} (f : A -> result B) (xs : list A) : result (list B) :=
  match xs with
  | [] => Ok []
  | x :: rest => b ← f x; bs ← map_result f rest; Ok (b :: bs)
  end.

(** The block of one network interface: the link speed in Gbps, the two
    rates and the two totals through [format_bytes]. *)
Definition network_block (py : interpreter) (d : list (string * json))
  : result string :=
  speed ← py_truediv (field "speed" d) (1024 * 1024 * 1024);
  speed_text ← fmt2f speed;
  recv_rate ← format_bytes (field "bytes_recv_rate_per_sec" d);
  sent_rate ← format_bytes (field "bytes_sent_rate_per_sec" d);
  total_recv ← format_bytes (field "bytes_recv_gauge" d);
  total_sent ← format_bytes (field "bytes_sent_gauge" d);
  Ok (nl +:+ "接口: "
      +:+ py_str py (default (JStr "unknown") (assoc "interface_name" d)) +:+ nl
      +:+ "  链接速度: " +:+ speed_text +:+ " Gbps" +:+ nl
      +:+ "  当前速率:" +:+ nl
      +:+ "    接收: " +:+ recv_rate +:+ "/s" +:+ nl
      +:+ "    发送: " +:+ sent_rate +:+ "/s" +:+ nl
      +:+ "  总流量:" +:+ nl
      +:+ "    接收: " +:+ total_recv +:+ nl
      +:+ "    发送: " +:+ total_sent +:+ nl).

(** The block of one disk: both byte counts divided twice, in MB. *)
Definition disk_block (entry : string * list (string * json)) : result string :=
  read ← scaled 2 (field "read_bytes" (snd entry));
  write ← scaled 2 (field "write_bytes" (snd entry));
  Ok (nl +:+ "设备: " +:+ fst entry +:+ nl
      +:+ "  读取: " +:+ read +:+ " MB" +:+ nl
      +:+ "  写入: " +:+ write +:+ " MB" +:+ nl).

(** The block of one filesystem: the three sizes divided three times, in GB. *)
Definition filesystem_block (py : interpreter) (d : list (string * json))
  : result string :=
  size ← scaled 3 (field "size" d);
  used ← scaled 3 (field "used" d);
  free ← scaled 3 (field "free" d);
  Ok (nl +:+ "挂载点: "
      +:+ py_str py (default (JStr "Unknown") (assoc "mnt_point" d)) +:+ nl
      +:+ "设备: "
      +:+ py_str py (default (JStr "Unknown") (assoc "device_name" d)) +:+ nl
      +:+ "总空间: " +:+ size +:+ " GB" +:+ nl
      +:+ "已用: " +:+ used +:+ " GB" +:+ nl
      +:+ "可用: " +:+ free +:+ " GB" +:+ nl
      +:+ "使用率: " +:+ py_str py (field "percent" d) +:+ "%" +:+ nl).

(** A disk I/O payload: one object per device name. *)
Definition disk_payload (disks : list (string * list (string * json))) : json :=
  JDict (List.map (fun entry => (fst entry, JDict (snd entry))) disks).

(** *** Defaults written out

    The defaults each template passes to [get], and the input in which
    every absent field is written out with its default. *)
Definition with_defaults (dflts d : list (string * json)) : list (string * json) :=
  d ++ List.filter
         (fun kv => match assoc (fst kv) d with None => true | Some _ => false end)
         dflts.

Definition fill_record (dflts : list (string * json)) (v : json) : json :=
  match v with
  | JDict d => JDict (with_defaults dflts d)
  | _ => v
  end.

Definition fill_each (dflts : list (string * json)) (v : json) : json :=
  match v with
  | JList l => JList (List.map (fill_record dflts) l)
  | _ => v
  end.

Definition fill_values (g : json -> json) (v : json) : json :=
  match v with
  | JDict d => JDict (List.map (fun kv => (fst kv, g (snd kv))) d)
  | _ => v
  end.

Definition fill_field (k : string) (g : json -> json) (d : list (string * json))
  : list (string * json) :=
  List.map (fun kv => if String.eqb (fst kv) k then (fst kv, g (snd kv)) else kv) d.

Definition system_defaults : list (string * json) :=
  [("hostname", JStr "Unknown"); ("os_name", JStr "Unknown"); ("os_version", JStr "");
   ("cpu", JDict []); ("mem", JDict []); ("diskio", JDict [])].

Definition process_defaults : list (string * json) :=
  [("name", JStr "Unknown"); ("pid", JStr "Unknown"); ("cpu_percent", JInt 0);
   ("memory_percent", JInt 0)].

Definition alert_defaults : list (string * json) :=
  [("type", JStr "Unknown"); ("state", JStr "Unknown"); ("begin", JStr "Unknown");
   ("end", JStr "Unknown"); ("desc", JStr "No description")].

Definition cpu_defaults : list (string * json) :=
  [("total", JInt 0); ("user", JInt 0); ("system", JInt 0); ("idle", JInt 0);
   ("iowait", JInt 0)].

Definition memory_defaults : list (string * json) :=
  [("total", JInt 0); ("used", JInt 0); ("free", JInt 0); ("percent", JInt 0)].

Definition disk_defaults : list (string * json) :=
  [("read_bytes", JInt 0); ("write_bytes", JInt 0)].

Definition sensor_defaults : list (string * json) :=
  [("label", JStr "Unknown"); ("value", JInt 0); ("unit", JStr "")].

Definition sensor_group_defaults : list (string * json) :=
  [("value", JInt 0); ("unit", JStr "")].

Definition docker_defaults : list (string * json) :=
  [("id", JStr "Unknown"); ("name", JStr "Unknown"); ("image", JList [JStr "Unknown"]);
   ("status", JStr "Unknown"); ("cpu_percent", JInt 0); ("memory_percent", JInt 0)].

Definition gpu_defaults : list (string * json) :=
  [("gpu_id", JStr "Unknown"); ("name", JStr "Unknown"); ("temperature", JInt 0);
   ("proc", JInt 0); ("mem", JInt 0); ("fan_speed", JInt 0)].

Definition process_count_defaults : list (string * json) :=
  [("total", JInt 0); ("running", JInt 0); ("sleeping", JInt 0); ("other", JInt 0);
   ("thread", JInt 0)].

Definition connections_defaults : list (string * json) :=
  [("ESTABLISHED", JInt 0); ("LISTEN", JInt 0); ("SYN_SENT", JInt 0);
   ("SYN_RECV", JInt 0); ("initiated", JInt 0); ("terminated", JInt 0)].

Definition address_defaults : list (string * json) :=
  [("address", JStr "Unknown"); ("family", JStr "Unknown")].

Definition fill_sensor_group (sensors : json) : json :=
  match sensors with
  | JList _ => fill_each sensor_defaults sensors
  | JDict _ => fill_record sensor_group_defaults sensors
  | _ => sensors
  end.

Definition explicit_defaults (f : formatter) (data : json) : json :=
  match f with
  | FormatSystemInfo =>
      match data with
      | JDict d =>
          JDict (fill_field "cpu" (fill_record [("total", JInt 0)])
                   (fill_field "mem" (fill_record [("percent", JInt 0)])
                      (fill_field "diskio" (fill_record [("percent", JInt 0)])
                         (with_defaults system_defaults d))))
      | _ => data
      end
  | FormatProcessInfo => fill_each process_defaults data
  | FormatAlertInfo => fill_each alert_defaults data
  | FormatCpuInfo => fill_record cpu_defaults data
  | FormatMemoryInfo => fill_record memory_defaults data
  | FormatDiskInfo => fill_values (fill_record disk_defaults) data
  | FormatSensorsInfo => fill_values fill_sensor_group data
  | FormatDockerInfo => fill_each docker_defaults data
  | FormatGpuInfo => fill_each gpu_defaults data
  | FormatProcessCount => fill_record process_count_defaults data
  | FormatConnectionsInfo => fill_record connections_defaults data
  | FormatIpInfo => fill_values (fill_each address_defaults) data
  end.

(** A system payload with some fields present and some absent. *)
Definition example_partial_system : json :=
  JDict [("os_name", JStr "Linux"); ("cpu", JDict [("user", JInt 3)]);
         ("mem", JDict [("percent", JInt 40)])].

(* ===================================================================== *)
(** ** The registry and its default pointer *)
(* ===================================================================== *)

Lemma add_server_default_registered i n u d st :
  default_registered st -> default_registered (snd (add_server i n u d st)).
Proof.
  unfold default_registered, add_server.
  destruct (SERVERS st !! i) eqn:Hi; simpl; [tauto|].
  intros [srv Hsrv].
  destruct (decide (i = default_id st)) as [->|Hne].
  - rewrite lookup_insert_eq. eauto.
  - rewrite lookup_insert_ne by done. eauto.
Qed.

Lemma set_default_server_default_registered i st :
  default_registered st -> default_registered (snd (set_default_server i st)).
Proof.
  unfold default_registered, set_default_server, set_default_server_id.
  destruct (SERVERS st !! i) eqn:Hi; simpl; [|tauto].
  intros _. rewrite Hi. eauto.
Qed.

Lemma remove_server_other_default_registered i st :
  i <> default_id st ->
  default_registered st -> default_registered (snd (remove_server i st)).
Proof.
  unfold default_registered, remove_server. intros Hne.
  destruct (SERVERS st !! i) eqn:Hi; simpl; [|tauto].
  rewrite lookup_delete_ne by done. tauto.
Qed.

Lemma run_op_default_registered op st :
  spares_default op st ->
  default_registered st -> default_registered (snd (run_op op st)).
Proof.
  destruct op; simpl.
  - intros _. apply add_server_default_registered.
  - apply remove_server_other_default_registered.
  - intros _. apply set_default_server_default_registered.
Qed.

(** C7. Selecting an id that is not registered raises [ValueError] and
    leaves the globals (default id and environment tag) as they were, the
    tool answering with the error text; selecting a registered id makes
    [get_default_server_id] return it and makes [get_server_url] with the id
    omitted return the same url as with the id given. *)
Theorem set_default_server_spec (st : state) (i : string) :
  (SERVERS st !! i = None ->
     set_default_server_id i st = (Raise (unknown_server i), st)
     /\ set_default_server i st = (Ok ("未找到服务器配置: " +:+ i), st))
  /\ (forall srv, SERVERS st !! i = Some srv ->
        let st' := snd (set_default_server i st) in
        get_default_server_id st' = i
        /\ get_server_url None st' = get_server_url (Some i) st'
        /\ get_server_url (Some i) st' = Ok (srv_url srv)).
Proof.
  split.
  - intros Hi. unfold set_default_server, set_default_server_id.
    rewrite Hi. split; reflexivity.
  - intros srv Hi. unfold set_default_server, set_default_server_id.
    rewrite Hi. simpl. unfold get_server_url, get_default_server_id. simpl.
    rewrite Hi. auto.
Qed.

(* ===================================================================== *)
(** ** Requests and the "unavailable" answers *)
(* ===================================================================== *)

Section Requests.
Variable py : interpreter.

Lemma request_body ep server_id st w srv body :
  target st server_id = Some srv ->
  http_get w (srv_url srv +:+ "/" +:+ ep) = Some body ->
  make_glances_request ep server_id st w = Ok body.
Proof.
  unfold target, make_glances_request, get_server_url. intros Hsrv Hget.
  destruct server_id; simpl in *; rewrite Hsrv; simpl; rewrite Hget; reflexivity.
Qed.

Lemma request_no_data ep server_id st w srv :
  (forall url, http_get w url = None) ->
  target st server_id = Some srv ->
  make_glances_request ep server_id st w = Ok JNull.
Proof.
  unfold target, make_glances_request, get_server_url. intros Hget Hsrv.
  destruct server_id; simpl in *; rewrite Hsrv; simpl; rewrite Hget; reflexivity.
Qed.

Lemma request_unknown ep i st w :
  SERVERS st !! i = None ->
  make_glances_request ep (Some i) st w = Raise (unknown_server i).
Proof.
  unfold make_glances_request, get_server_url. intros Hi. rewrite Hi. reflexivity.
Qed.

(** Every tool except [get_alert_info] answers a falsy payload with its
    "unavailable" text. *)
Lemma falsy_data_unavailable t server_id st w data :
  t <> GetAlertInfo ->
  make_glances_request (endpoint t) server_id st w = Ok data ->
  truthy data = false ->
  call py t server_id st w = Ok (unavailable t server_id).
Proof.
  intros Ht Hreq Hfalsy.
  destruct t; try congruence; simpl in Hreq; simpl call;
    match goal with
    | |- ?h _ _ _ _ = _ => unfold h
    | |- ?h _ _ _ = _ => unfold h
    end;
    rewrite Hreq; simpl; rewrite Hfalsy; reflexivity.
Qed.

(** C6 (amended). When no request returns data, every telemetry tool
    called with a server id that resolves (a registered id, or none while
    the default id is registered) returns its "unavailable" text. *)
Theorem unavailable_when_no_data (t : tool) (server_id : option string)
    (st : state) (w : adapter) (srv : server) :
  (forall url, http_get w url = None) ->
  target st server_id = Some srv ->
  call py t server_id st w = Ok (unavailable t server_id).
Proof.
  intros Hget Hsrv.
  pose proof (request_no_data (endpoint t) _ _ _ _ Hget Hsrv) as Hreq.
  destruct (decide (t = GetAlertInfo)) as [->|Ht].
  - simpl in *. unfold get_alert_info. rewrite Hreq. reflexivity.
  - apply falsy_data_unavailable with (data := JNull); auto.
Qed.

(** C10. A tool tests its payload with [not data]: a response whose body
    is falsy (empty object, empty list, zero, ...) gets the same
    "unavailable" text as a failed request.  [get_alert_info] alone tests
    [data is None]: a falsy body other than [null] goes to the formatter,
    which answers that there is no alert. *)
Theorem falsy_body_reported_unavailable (t : tool) (server_id : option string)
    (st : state) (w : adapter) (srv : server) (body : json) :
  target st server_id = Some srv ->
  http_get w (srv_url srv +:+ "/" +:+ endpoint t) = Some body ->
  truthy body = false ->
  (t <> GetAlertInfo ->
     call py t server_id st w = Ok (unavailable t server_id)
     /\ call py t server_id st w = call py t server_id st no_agent)
  /\ (t = GetAlertInfo -> body <> JNull ->
        call py t server_id st w = Ok "当前没有告警信息"
        /\ call py t server_id st no_agent = Ok "无法获取告警信息。").
Proof.
  intros Hsrv Hget Hfalsy.
  pose proof (request_body _ _ _ _ _ _ Hsrv Hget) as Hreq.
  assert (make_glances_request (endpoint t) server_id st no_agent = Ok JNull) as Hfail.
  { eapply request_no_data; [reflexivity | exact Hsrv]. }
  split.
  - intros Ht. split.
    + eapply falsy_data_unavailable; eauto.
    + rewrite (falsy_data_unavailable t server_id st w body) by auto.
      symmetry. now apply falsy_data_unavailable with (data := JNull).
  - intros -> Hnull. simpl in *. unfold get_alert_info. split.
    + rewrite Hreq. simpl. unfold format_alert_info. rewrite Hfalsy. simpl.
      destruct body; congruence.
    + rewrite Hfail. reflexivity.
Qed.

Lemma quot_rem_nonneg n d :
  0 <= n -> 0 < d -> n / d = n ÷ d /\ n mod d = Z.rem n d.
Proof.
  intros Hn Hd. split.
  - symmetry. apply Z.quot_div_nonneg; lia.
  - symmetry. apply Z.rem_mod_nonneg; lia.
Qed.

(** C9. Given a payload that reads as [n] seconds, [get_uptime] prints
    days [n div 86400], hours [(n mod 86400) div 3600] and minutes
    [(n mod 3600) div 60], nothing being rounded; for [n >= 0] the
    divisions are the truncating ones. *)
Theorem get_uptime_decomposition (server_id : option string) (st : state)
    (w : adapter) (srv : server) (data : json) (n : Z) :
  target st server_id = Some srv ->
  http_get w (srv_url srv +:+ "/" +:+ "uptime") = Some data ->
  truthy data = true ->
  py_int py data = Ok n ->
  get_uptime py server_id st w
  = Ok ("系统已运行: " +:+ str_int (n / 86400) +:+ "天 "
        +:+ str_int (n mod 86400 / 3600) +:+ "小时 "
        +:+ str_int (n mod 3600 / 60) +:+ "分钟")
  /\ (0 <= n ->
        n / 86400 = n ÷ 86400
        /\ n mod 86400 / 3600 = Z.rem n 86400 ÷ 3600
        /\ n mod 3600 / 60 = Z.rem n 3600 ÷ 60).
Proof.
  intros Hsrv Hget Htruthy Hint. split.
  - unfold get_uptime. rewrite (request_body _ _ _ _ _ _ Hsrv Hget). simpl.
    rewrite Htruthy. simpl. rewrite Hint. reflexivity.
  - intros Hn.
    destruct (quot_rem_nonneg n 86400 Hn) as [-> ->]; [lia|].
    destruct (quot_rem_nonneg n 3600 Hn) as [_ ->]; [lia|].
    destruct (quot_rem_nonneg (Z.rem n 86400) 3600) as [-> _]; [|lia|].
    { apply Z.rem_nonneg; lia. }
    destruct (quot_rem_nonneg (Z.rem n 3600) 60) as [-> _]; [|lia|].
    { apply Z.rem_nonneg; lia. }
    auto.
Qed.

End Requests.

(* ===================================================================== *)
(** ** The aggregate report *)
(* ===================================================================== *)

Lemma append_assoc (a b c : string) : a +:+ (b +:+ c) = (a +:+ b) +:+ c.
Proof.
  induction a as [|x a IH]; [reflexivity|].
  change (String x (a +:+ (b +:+ c)) = String x ((a +:+ b) +:+ c)).
  now rewrite IH.
Qed.

Section Aggregate.
Variable py : interpreter.

(** C5 (amended). For a registered server id whose [all] request returns
    data, and sub-tools that all return text, [get_all_stats] returns a
    header line naming the server followed by the outputs of the system,
    CPU, memory, disk I/O, network and uptime tools in that order, each one
    after the first preceded by a newline. *)
Theorem get_all_stats_report (i : string) (st : state) (w : adapter)
    (srv : server) (data : json) (body : string) :
  SERVERS st !! i = Some srv ->
  http_get w (srv_url srv +:+ "/" +:+ "all") = Some data ->
  truthy data = true ->
  joined_sub_reports py (Some i) st w = Ok body ->
  get_all_stats py (Some i) st w = Ok (all_stats_header srv +:+ body).
Proof.
  intros Hi Hget Htruthy Hsub.
  unfold get_all_stats.
  rewrite (request_body "all" (Some i) st w srv data Hi Hget).
  unfold joined_sub_reports in Hsub. unfold all_stats_header.
  unfold mbind, result_bind in *.
  rewrite Htruthy. unfold SERVERS_getitem. rewrite Hi. cbv beta iota.
  destruct (get_system_info py (Some i) st w) as [system|]; [|discriminate].
  destruct (get_cpu_info py (Some i) st w) as [cpu|]; [|discriminate].
  destruct (get_memory_info py (Some i) st w) as [memory|]; [|discriminate].
  destruct (get_disk_io_info (Some i) st w) as [disk_io|]; [|discriminate].
  destruct (get_network_info py (Some i) st w) as [network|]; [|discriminate].
  destruct (get_uptime py (Some i) st w) as [uptime|]; [|discriminate].
  injection Hsub as <-. unfold except_ValueError. f_equal.
  rewrite <- !append_assoc. reflexivity.
Qed.

End Aggregate.

(* ===================================================================== *)
(** ** Texts and loops *)
(* ===================================================================== *)

Ltac run := unfold mbind, result_bind; cbv beta iota.

(** Case analysis on the innermost [result] a goal inspects. *)
Ltac case_results :=
  repeat match goal with
         | |- context [match ?r with Ok _ => _ | Raise _ => _ end] =>
             lazymatch r with
             | context [match _ with Ok _ => _ | Raise _ => _ end] => fail
             | _ => destruct r; cbv beta iota; try reflexivity
             end
         end.

Lemma append_cons a s t : String a s +:+ t = String a (s +:+ t).
Proof. reflexivity. Qed.

Lemma append_nil_r s : s +:+ "" = s.
Proof. induction s as [|a s IH]; [reflexivity|]. rewrite append_cons. now rewrite IH. Qed.

Lemma concat_cons_cons a b l :
  String.concat "" (a :: b :: l) = a +:+ String.concat "" (b :: l).
Proof. reflexivity. Qed.

Lemma concat_cons a l : String.concat "" (a :: l) = a +:+ String.concat "" l.
Proof.
  destruct l; [|apply concat_cons_cons].
  change (a = a +:+ ""). now rewrite append_nil_r.
Qed.

Lemma for_loop_map {A B} (g : A -> B) (xs : list A)
    (body : string -> B -> result string) (acc : string) :
  for_loop (List.map g xs) body acc = for_loop xs (fun a x => body a (g x)) acc.
Proof.
  revert acc. induction xs as [|x xs IH]; intros acc; [reflexivity|].
  simpl. run. destruct (body acc (g x)); [apply IH | reflexivity].
Qed.


(** A loop that appends one block per element builds the blocks in order. *)
Lemma for_loop_blocks {A} (block : A -> result string) (xs : list A)
    (body : string -> A -> result string) :
  (forall acc x, body acc x = (b ← block x; Ok (acc +:+ b))) ->
  forall acc,
    for_loop xs body acc
    = (blocks ← map_result block xs; Ok (acc +:+ String.concat "" blocks)).
Proof.
  intros Hbody. induction xs as [|x xs IH]; intros acc; simpl.
  - run. change (String.concat "" []) with "". now rewrite append_nil_r.
  - rewrite Hbody. run. destruct (block x) as [b|]; [|reflexivity].
    rewrite IH. run. destruct (map_result block xs) as [bs|]; [|reflexivity].
    rewrite concat_cons, append_assoc. reflexivity.
Qed.

(* ===================================================================== *)
(** ** Integers within the range of a float *)
(* ===================================================================== *)

Lemma digits2_pos_spec (m : positive) :
  2 ^ (Zpos (digits2_pos m) - 1) <= Zpos m < 2 ^ Zpos (digits2_pos m).
Proof.
  induction m as [m IH|m IH|]; simpl digits2_pos.
  - rewrite Pos2Z.inj_succ, (Pos2Z.inj_xI m).
    replace (Z.succ (Zpos (digits2_pos m)) - 1) with (Z.succ (Zpos (digits2_pos m) - 1)) by lia.
    rewrite !Z.pow_succ_r by lia.
    set (a := 2 ^ (Zpos (digits2_pos m) - 1)) in *.
    set (b := 2 ^ Zpos (digits2_pos m)) in *. lia.
  - rewrite Pos2Z.inj_succ, (Pos2Z.inj_xO m).
    replace (Z.succ (Zpos (digits2_pos m)) - 1) with (Z.succ (Zpos (digits2_pos m) - 1)) by lia.
    rewrite !Z.pow_succ_r by lia.
    set (a := 2 ^ (Zpos (digits2_pos m) - 1)) in *.
    set (b := 2 ^ Zpos (digits2_pos m)) in *. lia.
  - simpl. lia.
Qed.

Lemma Zdigits2_nonneg z : 0 <= z -> 0 <= Zdigits2 z.
Proof. destruct z; simpl; lia. Qed.

Lemma Zdigits2_le z k : 0 <= z -> 0 <= k -> z < 2 ^ k -> Zdigits2 z <= k.
Proof.
  intros Hz Hk Hlt. destruct z as [|m|m]; simpl; [lia| |lia].
  destruct (digits2_pos_spec m) as [Hlo _].
  destruct (Z_le_gt_dec (Zpos (digits2_pos m)) k) as [|Hgt]; [assumption|].
  assert (2 ^ k <= 2 ^ (Zpos (digits2_pos m) - 1)) by (apply Z.pow_le_mono_r; lia).
  lia.
Qed.

Lemma Zdigits2_lt_pow z : 0 <= z -> z < 2 ^ Zdigits2 z.
Proof.
  intros Hz. destruct z as [|m|m]; simpl; [lia| |lia].
  apply digits2_pos_spec.
Qed.

Lemma shr_1_bound mrs :
  0 <= shr_m mrs -> 0 <= shr_m (shr_1 mrs) /\ 2 * shr_m (shr_1 mrs) <= shr_m mrs.
Proof.
  destruct mrs as [m r s]. simpl. destruct m as [|[p|p|]|p]; simpl; lia.
Qed.

Lemma iter_shr_1_bound p : forall mrs,
  0 <= shr_m mrs ->
  0 <= shr_m (SpecFloat.iter_pos shr_1 p mrs)
  /\ 2 ^ Zpos p * shr_m (SpecFloat.iter_pos shr_1 p mrs) <= shr_m mrs.
Proof.
  induction p as [p IH|p IH|]; intros mrs Hm; simpl SpecFloat.iter_pos.
  - destruct (shr_1_bound mrs Hm) as [H0 H1].
    destruct (IH _ H0) as [H2 H3]. destruct (IH _ H2) as [H4 H5].
    split; [assumption|].
    rewrite (Pos2Z.inj_xI p). replace (2 * Zpos p + 1) with (Z.succ (Zpos p + Zpos p)) by lia.
    rewrite Z.pow_succ_r, Z.pow_add_r by lia. nia.
  - destruct (IH _ Hm) as [H2 H3]. destruct (IH _ H2) as [H4 H5].
    split; [assumption|].
    rewrite (Pos2Z.inj_xO p). replace (2 * Zpos p) with (Zpos p + Zpos p) by lia.
    rewrite Z.pow_add_r by lia. nia.
  - destruct (shr_1_bound mrs Hm). simpl (2 ^ 1). lia.
Qed.

Lemma shr_record_of_loc_m m l : shr_m (shr_record_of_loc m l) = m.
Proof. destruct l as [|[]]; reflexivity. Qed.

Lemma shr_fexp_bound m e l :
  0 <= m ->
  0 <= shr_m (fst (shr_fexp 53 1024 m e l))
  /\ snd (shr_fexp 53 1024 m e l) = Z.max e (fexp 53 1024 (Zdigits2 m + e))
  /\ shr_m (fst (shr_fexp 53 1024 m e l)) * 2 ^ (snd (shr_fexp 53 1024 m e l) - e) <= m.
Proof.
  intros Hm. unfold shr_fexp, shr.
  destruct (fexp 53 1024 (Zdigits2 m + e) - e) as [|p|p] eqn:Hn; simpl fst; simpl snd.
  - rewrite shr_record_of_loc_m, Z.sub_diag. simpl (2 ^ 0). lia.
  - destruct (iter_shr_1_bound p (shr_record_of_loc m l)) as [H0 H1].
    { now rewrite shr_record_of_loc_m. }
    rewrite shr_record_of_loc_m in H1.
    replace (e + Zpos p - e) with (Zpos p) by lia. lia.
  - rewrite shr_record_of_loc_m, Z.sub_diag. simpl (2 ^ 0). lia.
Qed.

Lemma round_nearest_even_bound m l :
  0 <= m -> 0 <= round_nearest_even m l <= m + 1.
Proof. intros Hm. destruct l as [|[]]; simpl; try destruct (Z.even m); lia. Qed.

Lemma fexp_le x : x <= 1024 -> fexp 53 1024 x <= 971.
Proof. unfold fexp, emin. lia. Qed.

(** A mantissa and exponent within range never round to an infinity. *)
Lemma binary_round_aux_finite s mx ex lx :
  0 <= mx -> Zdigits2 mx + ex <= 1023 -> ex <= 971 ->
  is_infinite (binary_round_aux 53 1024 s mx ex lx) = false.
Proof.
  intros Hmx Hdigits Hex. unfold binary_round_aux.
  destruct (shr_fexp_bound mx ex lx Hmx) as (H0 & He' & Hshift).
  destruct (shr_fexp 53 1024 mx ex lx) as [mrs' e']. simpl fst in *. simpl snd in *.
  set (m1 := round_nearest_even (shr_m mrs') (loc_of_shr_record mrs')).
  destruct (round_nearest_even_bound (shr_m mrs') (loc_of_shr_record mrs') H0)
    as [Hm1 Hm1'].
  fold m1 in Hm1, Hm1'.
  destruct (shr_fexp_bound m1 e' loc_Exact Hm1) as (_ & He'' & _).
  destruct (shr_fexp 53 1024 m1 e' loc_Exact) as [mrs'' e'']. simpl fst in *. simpl snd in *.
  destruct (shr_m mrs''); try reflexivity.
  assert (e' <= 971) as Hle'.
  { subst e'. apply Z.max_lub; [assumption|]. apply fexp_le. lia. }
  assert (Zdigits2 m1 + e' <= 1024) as Hd1.
  { pose proof (Zdigits2_lt_pow mx Hmx) as Hlt.
    pose proof (Zdigits2_nonneg mx Hmx) as HD.
    assert (0 <= e' - ex) as Hk by lia.
    destruct (Z_le_gt_dec (e' - ex) (Zdigits2 mx)) as [Hcase|Hcase].
    - assert (m1 < 2 ^ (Zdigits2 mx - (e' - ex) + 1)) as Hm1lt.
      { rewrite Z.pow_add_r by lia. simpl (2 ^ 1).
        replace (Zdigits2 mx) with (Zdigits2 mx - (e' - ex) + (e' - ex)) in Hlt by lia.
        rewrite Z.pow_add_r in Hlt by lia.
        assert (0 < 2 ^ (e' - ex)) by (apply Z.pow_pos_nonneg; lia).
        assert (0 < 2 ^ (Zdigits2 mx - (e' - ex))) by (apply Z.pow_pos_nonneg; lia).
        nia. }
      pose proof (Zdigits2_le m1 (Zdigits2 mx - (e' - ex) + 1) Hm1 ltac:(lia) Hm1lt). lia.
    - assert (2 ^ Zdigits2 mx <= 2 ^ (e' - ex)) by (apply Z.pow_le_mono_r; lia).
      assert (shr_m mrs' = 0) by nia.
      assert (m1 < 2 ^ 1) by (simpl; lia).
      pose proof (Zdigits2_le m1 1 Hm1 ltac:(lia) ltac:(assumption)). lia. }
  assert (e'' <= 971) as Hle''.
  { subst e''. apply Z.max_lub; [assumption|]. now apply fexp_le. }
  apply Z.leb_le in Hle''. change (1024 - 53) with 971. rewrite Hle''. reflexivity.
Qed.

Lemma iter_xO_pow m d : Zpos (Pos.iter xO m d) = Zpos m * 2 ^ Zpos d.
Proof.
  induction d as [|d IH] using Pos.peano_ind.
  - simpl. lia.
  - rewrite Pos.iter_succ, Pos2Z.inj_xO, IH, Pos2Z.inj_succ, Z.pow_succ_r by lia. lia.
Qed.

Lemma float_of_int_finite n :
  Z.abs n < 2 ^ 1000 -> is_infinite (f64_of_Z n) = false.
Proof.
  intros Hn. unfold f64_of_Z, binary_normalize.
  assert (forall s m, Zpos m < 2 ^ 1000 ->
            is_infinite (binary_round 53 1024 s m 0) = false) as Hround.
  { intros s m Hm. unfold binary_round, shl_align.
    pose proof (Zdigits2_le (Zpos m) 1000 ltac:(lia) ltac:(lia) Hm) as HD.
    simpl Zdigits2 in HD.
    destruct (fexp 53 1024 (Zpos (digits2_pos m) + 0) - 0) as [|p|p] eqn:Hshift.
    - apply binary_round_aux_finite; simpl Zdigits2; lia.
    - apply binary_round_aux_finite; simpl Zdigits2; lia.
    - apply binary_round_aux_finite; [lia| |unfold fexp, emin in *; lia].
      assert (Zpos (Pos.iter xO m p) < 2 ^ (Zpos (digits2_pos m) + Zpos p)) as Hlt.
      { rewrite iter_xO_pow, Z.pow_add_r by lia.
        pose proof (proj2 (digits2_pos_spec m)).
        assert (0 < 2 ^ Zpos p) by (apply Z.pow_pos_nonneg; lia). nia. }
      pose proof (Zdigits2_le (Zpos (Pos.iter xO m p)) (Zpos (digits2_pos m) + Zpos p)
                    ltac:(lia) ltac:(lia) Hlt).
      unfold fexp, emin in *. lia. }
  destruct n as [|m|m]; [reflexivity| |]; apply Hround; lia.
Qed.

Lemma SFdiv_int_finite s m d :
  Zpos m < 2 ^ 1000 ->
  is_infinite (SFdiv 53 1024 (S754_finite s m 0) (S754_finite false d 0)) = false.
Proof.
  intros Hm. unfold SFdiv, SFdiv_core_binary.
  set (e' := Z.min (fexp 53 1024 (Zdigits2 (Zpos m) + 0 - (Zdigits2 (Zpos d) + 0))) (0 - 0)).
  assert (e' <= 0) as He' by (unfold e'; lia).
  set (m' := match 0 - 0 - e' with
             | Zpos _ => Z.shiftl (Zpos m) (0 - 0 - e')
             | Z0 => Zpos m
             | Zneg _ => 0
             end).
  assert (m' = Zpos m * 2 ^ (- e')) as Hm'.
  { unfold m'. destruct (0 - 0 - e') as [|p|p] eqn:Hs.
    - replace (- e') with 0 by lia. simpl. lia.
    - rewrite Z.shiftl_mul_pow2 by lia. f_equal. f_equal. lia.
    - lia. }
  pose proof (Z_div_mod m' (Zpos d) ltac:(lia)) as Hdiv.
  destruct (Z.div_eucl m' (Zpos d)) as [q r].
  assert (0 < 2 ^ (- e')) by (apply Z.pow_pos_nonneg; lia).
  assert (0 <= q) by nia.
  assert (q <= m') by nia.
  apply binary_round_aux_finite; [assumption| |lia].
  assert (q < 2 ^ (1000 + - e')) as Hq.
  { rewrite Z.pow_add_r by lia. nia. }
  pose proof (Zdigits2_le q (1000 + - e') ltac:(assumption) ltac:(lia) Hq). lia.
Qed.

Lemma int_truediv_ok n d :
  Z.abs n < 2 ^ 1000 -> exists f, int_truediv n d = Ok f.
Proof.
  intros Hn. unfold int_truediv. destruct n as [|m|m]; [eauto| |];
    rewrite SFdiv_int_finite by lia; eauto.
Qed.

Lemma float_of_int_ok n :
  Z.abs n < 2 ^ 1000 -> exists f, float_of_int n = Ok f.
Proof.
  intros Hn. unfold float_of_int. rewrite float_of_int_finite by assumption. eauto.
Qed.

Lemma in_float_range_inv v :
  in_float_range v = true ->
  (exists b, py_lt v 1024 = Ok b)
  /\ (exists s, fmt2f v = Ok s)
  /\ (forall d, exists f, py_truediv v d = Ok (JFloat f)).
Proof.
  destruct v as [|b|n|f|s|l|d]; try discriminate; simpl; intros Hv.
  - destruct (float_of_int_ok (Z_of_bool b)) as [f Hf]; [destruct b; simpl; lia|].
    repeat split; eauto.
    + rewrite Hf. simpl. eauto.
    + intros d. destruct (int_truediv_ok (Z_of_bool b) d) as [q Hq];
        [destruct b; simpl; lia|].
      rewrite Hq. simpl. eauto.
  - apply Z.ltb_lt in Hv.
    destruct (float_of_int_ok n Hv) as [f Hf].
    repeat split; eauto.
    + rewrite Hf. simpl. eauto.
    + intros d. destruct (int_truediv_ok n d Hv) as [q Hq]. rewrite Hq. simpl. eauto.
  - repeat split; eauto.
Qed.

(* ===================================================================== *)
(** ** Byte counts *)
(* ===================================================================== *)

Lemma format_bytes_loop_spec units v :
  in_float_range v = true ->
  exists k : nat,
    (k <= length units)%nat
    /\ (exists s, scaled k v = Ok s
                  /\ format_bytes_loop units v
                     = Ok (s +:+ " " +:+ nth k (units ++ ["PB"]) ""))
    /\ ((k < length units)%nat -> below_1024 k v = Ok true)
    /\ (forall j : nat, (j < k)%nat -> below_1024 j v = Ok false).
Proof.
  revert v. induction units as [|unit rest IH]; intros v Hv;
    destruct (in_float_range_inv v Hv) as ([b Hlt] & [s Hs] & Hdivs);
    destruct (Hdivs 1024%positive) as [f Hdiv];
    assert (in_float_range (JFloat f) = true) as Hf by reflexivity.
  - exists 0%nat. repeat split.
    + simpl. lia.
    + exists s. unfold scaled. simpl. run. rewrite Hs. auto.
    + simpl. lia.
    + intros j Hj. lia.
  - simpl format_bytes_loop. rewrite Hlt. run. destruct b.
    + exists 0%nat. repeat split.
      * lia.
      * exists s. unfold scaled. simpl. run. rewrite Hs. auto.
      * intros _. unfold below_1024. simpl. run. exact Hlt.
      * intros j Hj. lia.
    + rewrite Hdiv.
      destruct (IH (JFloat f) Hf) as (k & Hk & (s' & Hs' & Hloop) & Hbelow & Habove).
      exists (S k). repeat split.
      * simpl. lia.
      * exists s'. split; [|exact Hloop].
        unfold scaled in *. simpl. run. rewrite Hdiv. exact Hs'.
      * intros Hlen. unfold below_1024 in *. simpl. run. rewrite Hdiv.
        apply Hbelow. simpl in Hlen. lia.
      * intros [|j] Hj; unfold below_1024 in *; simpl; run.
        -- exact Hlt.
        -- rewrite Hdiv. apply Habove. lia.
Qed.

Lemma fmt_mb_scaled v : fmt_mb v = scaled 2 v.
Proof.
  unfold fmt_mb, scaled. simpl. run.
  destruct (py_truediv v 1024) as [a|]; [|reflexivity].
  destruct (py_truediv a 1024); reflexivity.
Qed.

Lemma fmt_gb_scaled v : fmt_gb v = scaled 3 v.
Proof.
  unfold fmt_gb, scaled. simpl. run.
  destruct (py_truediv v 1024) as [a|]; [|reflexivity].
  destruct (py_truediv a 1024) as [b|]; [|reflexivity].
  destruct (py_truediv b 1024); reflexivity.
Qed.

Section ByteCounts.
Variable py : interpreter.

Lemma truthy_objects (ds : list (list (string * json))) :
  ds <> [] -> truthy (JList (List.map JDict ds)) = true.
Proof. destruct ds; [congruence | reflexivity]. Qed.

(** C4 (amended). Only the network report scales its byte counts: the
    rates and totals of every interface go through [format_bytes], which
    divides by 1024 until the value is below 1024 or five divisions are
    done, and prints the value with two decimals and the unit B, KB, MB,
    GB, TB or PB of the number of divisions.  The memory report, the swap
    report and the disk I/O report divide every byte count twice and label
    it MB, for every disk; the filesystem report divides three times and
    labels GB, for every filesystem. *)
Theorem byte_count_rendering :
  (forall v, in_float_range v = true ->
     exists k : nat,
       (k <= 5)%nat
       /\ (exists s, scaled k v = Ok s
                     /\ format_bytes v = Ok (s +:+ " " +:+ nth k byte_units ""))
       /\ ((k < 5)%nat -> below_1024 k v = Ok true)
       /\ (forall j : nat, (j < k)%nat -> below_1024 j v = Ok false))
  /\ (forall server_id st w interfaces,
        make_glances_request "network" server_id st w
        = Ok (JList (List.map JDict interfaces)) ->
        interfaces <> [] ->
        get_network_info py server_id st w
        = (blocks ← map_result (network_block py) interfaces;
           Ok (("网络信息:" +:+ nl) +:+ String.concat "" blocks)))
  /\ (forall d,
        format_memory_info py (JDict d)
        = (total ← scaled 2 (field "total" d);
           used ← scaled 2 (field "used" d);
           free ← scaled 2 (field "free" d);
           Ok (nl +:+ "内存信息:" +:+ nl
               +:+ "总内存: " +:+ total +:+ " MB" +:+ nl
               +:+ "已使用: " +:+ used +:+ " MB" +:+ nl
               +:+ "空闲: " +:+ free +:+ " MB" +:+ nl
               +:+ "使用率: " +:+ py_str py (field "percent" d) +:+ "%" +:+ nl)))
  /\ (forall server_id st w d,
        make_glances_request "memswap" server_id st w = Ok (JDict d) ->
        d <> [] ->
        get_swap_info py server_id st w
        = (total ← scaled 2 (field "total" d);
           used ← scaled 2 (field "used" d);
           free ← scaled 2 (field "free" d);
           Ok (nl +:+ "交换分区信息:" +:+ nl
               +:+ "总大小: " +:+ total +:+ " MB" +:+ nl
               +:+ "已使用: " +:+ used +:+ " MB" +:+ nl
               +:+ "空闲: " +:+ free +:+ " MB" +:+ nl
               +:+ "使用率: " +:+ py_str py (field "percent" d) +:+ "%" +:+ nl)))
  /\ (forall disks,
        format_disk_info (disk_payload disks)
        = (blocks ← map_result disk_block disks;
           Ok (("磁盘I/O信息:" +:+ nl) +:+ String.concat "" blocks)))
  /\ (forall server_id st w filesystems,
        make_glances_request "fs" server_id st w
        = Ok (JList (List.map JDict filesystems)) ->
        filesystems <> [] ->
        get_fs_info py server_id st w
        = (blocks ← map_result (filesystem_block py) filesystems;
           Ok (("文件系统信息:" +:+ nl) +:+ String.concat "" blocks))).
Proof.
  repeat apply conj.
  - intros v Hv. exact (format_bytes_loop_spec ["B"; "KB"; "MB"; "GB"; "TB"] v Hv).
  - intros server_id st w interfaces Hreq Hne. unfold get_network_info.
    rewrite Hreq. run. rewrite (truthy_objects _ Hne). simpl negb. cbv iota.
    unfold py_iter. rewrite for_loop_map.
    apply for_loop_blocks. intros acc d.
    unfold network_block, py_get, field, format_bytes_rate. run. case_results.
  - intros d. unfold format_memory_info, py_get. run.
    rewrite !fmt_mb_scaled. reflexivity.
  - intros server_id st w d Hreq Hd. unfold get_swap_info. rewrite Hreq.
    unfold py_get. run. destruct d; [congruence|]. simpl truthy. simpl negb.
    cbv beta iota. rewrite !fmt_mb_scaled. reflexivity.
  - intros disks. unfold format_disk_info, disk_payload, py_items. run.
    rewrite for_loop_map. apply for_loop_blocks. intros acc [disk info].
    unfold disk_block, py_get, field. simpl fst. simpl snd. run.
    rewrite !fmt_mb_scaled. case_results.
  - intros server_id st w filesystems Hreq Hne. unfold get_fs_info.
    rewrite Hreq. run. rewrite (truthy_objects _ Hne). simpl negb. cbv iota.
    unfold py_iter. rewrite for_loop_map.
    apply for_loop_blocks. intros acc d.
    unfold filesystem_block, py_get. run. rewrite !fmt_gb_scaled. unfold field.
    case_results.
Qed.

End ByteCounts.

(* ===================================================================== *)
(** ** Formatters on well-shaped input *)
(* ===================================================================== *)




















Section Shapes.
Variable py : interpreter.






















End Shapes.

(* ===================================================================== *)
(** ** Unknown server ids *)
(* ===================================================================== *)

(** Only three tools catch the [ValueError] of an unknown server id; all
    the others let it escape. *)
Lemma call_unknown_id py t i st w :
  SERVERS st !! i = None ->
  call py t (Some i) st w
  = if catches_ValueError t then Ok ("未找到服务器配置: " +:+ i)
    else Raise (unknown_server i).
Proof.
  intros Hi.
  destruct t; simpl;
    match goal with
    | |- ?h _ _ _ _ = _ => unfold h
    | |- ?h _ _ _ = _ => unfold h
    end;
    rewrite (request_unknown _ i st w Hi); reflexivity.
Qed.

(* ===================================================================== *)
(** ** Worked examples *)
(* ===================================================================== *)

(** C1. Passing an id that is not registered to [get_cpu_info] raises
    [ValueError] out of the tool, where [get_system_info] returns the
    message; and [get_system_info] without an id raises [KeyError] once
    data has arrived. *)
Theorem unknown_id_escapes_get_cpu_info :
  get_cpu_info example_interpreter (Some "nope") example_state example_agent
  = Raise (ValueError "未找到服务器配置: nope")
  /\ get_system_info example_interpreter (Some "nope") example_state example_agent
     = Ok "未找到服务器配置: nope"
  /\ get_system_info example_interpreter None example_state example_agent
     = Raise KeyError.
Proof. repeat split; vm_compute; reflexivity. Qed.

(** C2. Removing the default server succeeds and leaves the default id
    pointing at no entry: the registry invariant holds before the removal
    and fails after it, and [get_default_server] then raises. *)
Theorem remove_server_unregisters_default :
  default_registered example_state
  /\ fst (remove_server "server1" example_state) = Ok "成功删除服务器 'server1'"
  /\ ~ default_registered (run_ops [OpRemove "server1"] example_state)
  /\ get_default_server (run_ops [OpRemove "server1"] example_state) = Raise KeyError.
Proof.
  split; [|split; [|split]].
  - exists example_server1. vm_compute. reflexivity.
  - vm_compute. reflexivity.
  - intros [srv Hsrv]. vm_compute in Hsrv. discriminate.
  - vm_compute. reflexivity.
Qed.



(** A system payload with [hostname], [os_version], [diskio] and the
    [total] of [cpu] absent: the absent fields are written out with the
    defaults of the template, and are rendered by them. *)
Example explicit_defaults_partial_system :
  explicit_defaults FormatSystemInfo example_partial_system
  = JDict [("os_name", JStr "Linux");
           ("cpu", JDict [("user", JInt 3); ("total", JInt 0)]);
           ("mem", JDict [("percent", JInt 40)]);
           ("hostname", JStr "Unknown"); ("os_version", JStr "");
           ("diskio", JDict [("percent", JInt 0)])]
  /\ format example_interpreter FormatSystemInfo example_partial_system
     = Ok (nl +:+ "系统信息:" +:+ nl
           +:+ "主机名: Unknown" +:+ nl
           +:+ "操作系统: Linux " +:+ nl
           +:+ "CPU使用率: 0%" +:+ nl
           +:+ "内存使用率: 40%" +:+ nl
           +:+ "磁盘使用率: 0%" +:+ nl).
Proof. split; vm_compute; reflexivity. Qed.

(** C4, counterexample. A memory payload of 1024 bytes is reported as
    [0.00 MB], not as [1.00 KB]. *)
Lemma format_memory_info_fixed_unit :
  format_memory_info example_interpreter
    (JDict [("total", JInt 1024); ("used", JInt 1024); ("free", JInt 0)])
  = Ok (nl +:+ "内存信息:" +:+ nl
        +:+ "总内存: 0.00 MB" +:+ nl
        +:+ "已使用: 0.00 MB" +:+ nl
        +:+ "空闲: 0.00 MB" +:+ nl
        +:+ "使用率: 0%" +:+ nl)
  /\ memory_info_in_scaled_units example_interpreter
       (JDict [("total", JInt 1024); ("used", JInt 1024); ("free", JInt 0)])
     = Ok (nl +:+ "内存信息:" +:+ nl
           +:+ "总内存: 1.00 KB" +:+ nl
           +:+ "已使用: 1.00 KB" +:+ nl
           +:+ "空闲: 0.00 B" +:+ nl
           +:+ "使用率: 0%" +:+ nl)
  /\ format_memory_info example_interpreter
       (JDict [("total", JInt 1024); ("used", JInt 1024); ("free", JInt 0)])
     <> memory_info_in_scaled_units example_interpreter
          (JDict [("total", JInt 1024); ("used", JInt 1024); ("free", JInt 0)]).
Proof.
  repeat split; try (vm_compute; reflexivity).
  vm_compute. intros H. discriminate H.
Qed.

(** Five gibibytes through [format_bytes], and the example agent's network,
    swap and filesystem pages. *)
Lemma byte_count_rendering_witness :
  (in_float_range (JInt 5368709120) = true
   /\ exists k : nat,
        (k <= 5)%nat
        /\ (exists s, scaled k (JInt 5368709120) = Ok s
                      /\ format_bytes (JInt 5368709120)
                         = Ok (s +:+ " " +:+ nth k byte_units ""))
        /\ ((k < 5)%nat -> below_1024 k (JInt 5368709120) = Ok true)
        /\ (forall j : nat, (j < k)%nat -> below_1024 j (JInt 5368709120) = Ok false))
  /\ (make_glances_request "network" None example_state example_agent
      = Ok (JList (List.map JDict [example_interface]))
      /\ [example_interface] <> []
      /\ is_ok (get_network_info example_interpreter None example_state example_agent)
         = true)
  /\ (make_glances_request "memswap" None example_state example_agent
      = Ok (JDict example_swap)
      /\ example_swap <> []
      /\ get_swap_info example_interpreter None example_state example_agent
         = Ok (nl +:+ "交换分区信息:" +:+ nl
               +:+ "总大小: 2048.00 MB" +:+ nl
               +:+ "已使用: 0.00 MB" +:+ nl
               +:+ "空闲: 2048.00 MB" +:+ nl
               +:+ "使用率: 0%" +:+ nl))
  /\ (make_glances_request "fs" None example_state example_agent
      = Ok (JList (List.map JDict [example_filesystem]))
      /\ [example_filesystem] <> []
      /\ is_ok (get_fs_info example_interpreter None example_state example_agent)
         = true).
Proof.
  destruct (byte_count_rendering example_interpreter)
    as (Hbytes & Hnetwork & _ & Hswap & _ & Hfs).
  repeat apply conj.
  - reflexivity.
  - apply Hbytes. reflexivity.
  - reflexivity.
  - discriminate.
  - rewrite (Hnetwork None example_state example_agent [example_interface] eq_refl);
      [vm_compute; reflexivity | discriminate].
  - reflexivity.
  - discriminate.
  - rewrite (Hswap None example_state example_agent example_swap eq_refl);
      [vm_compute; reflexivity | discriminate].
  - reflexivity.
  - discriminate.
  - rewrite (Hfs None example_state example_agent [example_filesystem] eq_refl);
      [vm_compute; reflexivity | discriminate].
Defined.

(** C5, counterexample. The aggregate report is not just the six
    sub-reports joined by newlines: it starts with a header line. *)
Lemma get_all_stats_has_header :
  is_ok (joined_sub_reports example_interpreter (Some "server1") example_state
           example_agent) = true
  /\ get_all_stats example_interpreter (Some "server1") example_state example_agent
     <> joined_sub_reports example_interpreter (Some "server1") example_state
          example_agent.
Proof.
  split; [vm_compute; reflexivity|].
  vm_compute. intros H. discriminate H.
Qed.

(** The aggregate report of the example agent. *)
Lemma get_all_stats_report_witness :
  SERVERS example_state !! "server1" = Some example_server1
  /\ exists body,
       joined_sub_reports example_interpreter (Some "server1") example_state
         example_agent = Ok body
       /\ get_all_stats example_interpreter (Some "server1") example_state
            example_agent
          = Ok (all_stats_header example_server1 +:+ body).
Proof.
  split; [vm_compute; reflexivity|].
  eexists. split; [vm_compute; reflexivity|].
  apply (get_all_stats_report example_interpreter "server1" example_state
           example_agent example_server1 (JDict [("cpu", JDict [("total", JInt 7)])]));
    vm_compute; reflexivity.
Defined.

(** C6, counterexample. With no agent answering, a call for an id that
    is not registered does not give the "unavailable" text: [get_system_info]
    reports the unknown id and [get_cpu_info] raises. *)
Lemma unknown_id_not_unavailable :
  call example_interpreter GetSystemInfo (Some "nope") example_state no_agent
  = Ok "未找到服务器配置: nope"
  /\ call example_interpreter GetSystemInfo (Some "nope") example_state no_agent
     <> Ok (unavailable GetSystemInfo (Some "nope"))
  /\ call example_interpreter GetCpuInfo (Some "nope") example_state no_agent
     = Raise (ValueError "未找到服务器配置: nope").
Proof.
  repeat split; try (vm_compute; reflexivity).
  vm_compute. intros H. discriminate H.
Qed.

(** With no agent answering, the default server and server2 both resolve. *)
Lemma unavailable_when_no_data_witness :
  target example_state None = Some example_server1
  /\ call example_interpreter GetMemoryInfo None example_state no_agent
     = Ok "无法获取内存信息。"
  /\ call example_interpreter GetSystemInfo (Some "server2") example_state no_agent
     = Ok "无法获取服务器 'server2' 的系统信息。".
Proof.
  split; [vm_compute; reflexivity|]. split.
  - apply (unavailable_when_no_data example_interpreter GetMemoryInfo None
             example_state no_agent example_server1);
      [reflexivity | vm_compute; reflexivity].
  - apply (unavailable_when_no_data example_interpreter GetSystemInfo (Some "server2")
             example_state no_agent example_server2);
      [reflexivity | vm_compute; reflexivity].
Defined.

(** Selecting an unknown id, then the production server. *)
Lemma set_default_server_spec_witness :
  (SERVERS example_state !! "nope" = None
   /\ set_default_server "nope" example_state
      = (Ok "未找到服务器配置: nope", example_state))
  /\ (SERVERS example_state !! "server2" = Some example_server2
      /\ get_default_server_id (snd (set_default_server "server2" example_state))
         = "server2"
      /\ get_server_url None (snd (set_default_server "server2" example_state))
         = Ok "http://192.168.1.20:61208/api/4").
Proof.
  assert (SERVERS example_state !! "nope" = None) as Hnope
    by (vm_compute; reflexivity).
  assert (SERVERS example_state !! "server2" = Some example_server2) as Hs2
    by (vm_compute; reflexivity).
  destruct (set_default_server_spec example_state "nope") as [Hunknown _].
  destruct (set_default_server_spec example_state "server2") as [_ Hknown].
  destruct (Hunknown Hnope) as [_ Htool].
  destruct (Hknown example_server2 Hs2) as (Hid & Hurl & Hurl').
  split; [split; [exact Hnope | exact Htool]|].
  split; [exact Hs2|]. split; [exact Hid|].
  rewrite Hurl. exact Hurl'.
Defined.

(** C8. [format_bytes] on the specification's sample values. *)
Theorem format_bytes_samples :
  format_bytes (JInt 0) = Ok "0.00 B"
  /\ format_bytes (JInt 1023) = Ok "1023.00 B"
  /\ format_bytes (JInt 1024) = Ok "1.00 KB"
  /\ format_bytes (JInt 1048576) = Ok "1.00 MB"
  /\ format_bytes (JInt 1125899906842624) = Ok "1.00 PB".
Proof. repeat split; vm_compute; reflexivity. Qed.

(** 90000 seconds are one day, one hour and no minute. *)
Lemma get_uptime_decomposition_witness :
  get_uptime example_interpreter (Some "server1") example_state example_agent
  = Ok "系统已运行: 1天 1小时 0分钟"
  /\ 90000 / 86400 = 90000 ÷ 86400.
Proof.
  destruct (get_uptime_decomposition example_interpreter (Some "server1")
              example_state example_agent example_server1 (JInt 90000) 90000)
    as [Htext Htrunc].
  - vm_compute. reflexivity.
  - reflexivity.
  - reflexivity.
  - reflexivity.
  - split.
    + rewrite Htext. vm_compute. reflexivity.
    + apply Htrunc. lia.
Defined.

(** An uptime of 0 seconds is reported as unavailable; an empty alert
    list is reported as "no alert". *)
Lemma falsy_body_reported_unavailable_witness :
  call example_interpreter GetUptime None example_state (constant_agent (JInt 0))
  = Ok "无法获取系统运行时间。"
  /\ call example_interpreter GetAlertInfo None example_state
       (constant_agent (JList []))
     = Ok "当前没有告警信息".
Proof.
  assert (target example_state None = Some example_server1) as Hsrv
    by (vm_compute; reflexivity).
  split.
  - apply (falsy_body_reported_unavailable example_interpreter GetUptime None
             example_state (constant_agent (JInt 0)) example_server1 (JInt 0)
             Hsrv eq_refl eq_refl).
    discriminate.
  - apply (falsy_body_reported_unavailable example_interpreter GetAlertInfo None
             example_state (constant_agent (JList [])) example_server1 (JList [])
             Hsrv eq_refl eq_refl);
      [reflexivity | discriminate].
Defined.

(* ===================================================================== *)
(** ** More on the registry *)
(* ===================================================================== *)

(** X1. [add_server] with a fresh id registers the given url under that id
    and leaves every other id as it resolved before; with an id already
    present it answers with the error text and changes nothing, the old
    url still resolving. *)
Theorem add_server_resolves (st : state) (i n u d : string) :
  (SERVERS st !! i = None ->
     fst (add_server i n u d st) = Ok ("成功添加服务器 '" +:+ n +:+ "'")
     /\ get_server_url (Some i) (snd (add_server i n u d st)) = Ok u
     /\ forall j, j <> i ->
          get_server_url (Some j) (snd (add_server i n u d st))
          = get_server_url (Some j) st)
  /\ (forall srv, SERVERS st !! i = Some srv ->
        add_server i n u d st = (Ok ("错误：服务器ID '" +:+ i +:+ "' 已存在"), st)
        /\ get_server_url (Some i) (snd (add_server i n u d st)) = Ok (srv_url srv)).
Proof.
  split.
  - intros Hi. unfold add_server. rewrite Hi. simpl. split; [reflexivity|].
    unfold get_server_url. simpl. split.
    + rewrite lookup_insert_eq. reflexivity.
    + intros j Hj. rewrite lookup_insert_ne by congruence. reflexivity.
  - intros srv Hi. unfold add_server. rewrite Hi. simpl. split; [reflexivity|].
    unfold get_server_url. rewrite Hi. reflexivity.
Qed.

(** X2. [remove_server] on a registered id makes that id unknown to
    [get_server_url] and leaves the other ids alone; on an id that is not
    registered it answers with the error text and changes nothing. *)
Theorem remove_server_forgets (st : state) (i : string) :
  (forall srv, SERVERS st !! i = Some srv ->
     fst (remove_server i st) = Ok ("成功删除服务器 '" +:+ i +:+ "'")
     /\ get_server_url (Some i) (snd (remove_server i st)) = Raise (unknown_server i)
     /\ forall j, j <> i ->
          get_server_url (Some j) (snd (remove_server i st))
          = get_server_url (Some j) st)
  /\ (SERVERS st !! i = None ->
        remove_server i st = (Ok ("错误：未找到服务器ID '" +:+ i +:+ "'"), st)).
Proof.
  split.
  - intros srv Hi. unfold remove_server. rewrite Hi. simpl. split; [reflexivity|].
    unfold get_server_url. simpl. split.
    + rewrite lookup_delete_eq. reflexivity.
    + intros j Hj. rewrite lookup_delete_ne by congruence. reflexivity.
  - intros Hi. unfold remove_server. rewrite Hi. reflexivity.
Qed.

(** X3. Adding a fresh id and removing it again gives back the globals
    exactly as they were. *)
Theorem add_then_remove_restores (st : state) (i n u d : string) :
  SERVERS st !! i = None ->
  snd (remove_server i (snd (add_server i n u d st))) = st.
Proof.
  intros Hi. unfold add_server. rewrite Hi. simpl.
  unfold remove_server. simpl. rewrite lookup_insert_eq. simpl.
  rewrite delete_insert_id by assumption. destruct st; reflexivity.
Qed.

Lemma run_op_keeps_default op st :
  is_set_default op = false ->
  default_id (snd (run_op op st)) = default_id st
  /\ default_env (snd (run_op op st)) = default_env st.
Proof.
  destruct op as [i n u d|i|i]; simpl; [| |discriminate]; intros _.
  - unfold add_server. destruct (SERVERS st !! i); auto.
  - unfold remove_server. destruct (SERVERS st !! i); auto.
Qed.

(** X4. No sequence of [add_server] and [remove_server] calls moves the
    default pointer: the default id and the environment tag stay as they
    were, even when the default server itself is removed. *)
Theorem add_remove_keep_default_pointer (ops : list registry_op) (st : state) :
  forallb (fun op => negb (is_set_default op)) ops = true ->
  default_id (run_ops ops st) = default_id st
  /\ default_env (run_ops ops st) = default_env st.
Proof.
  revert st. induction ops as [|op ops IH]; intros st Hops; [auto|].
  simpl in Hops. apply andb_true_iff in Hops as [Hop Hrest].
  apply negb_true_iff in Hop.
  destruct (run_op_keeps_default op st Hop) as [Hid Henv].
  destruct (IH (snd (run_op op st)) Hrest) as [Hid' Henv'].
  simpl. split; congruence.
Qed.

(** X5. The registry invariant along a sequence of operations: when the
    default id is registered and no operation removes the server that is
    the default at that moment, the default id is still registered at the
    end. *)
Theorem run_ops_default_registered (ops : list registry_op) (st : state) :
  default_registered st ->
  spare_default ops st ->
  default_registered (run_ops ops st).
Proof.
  revert st. induction ops as [|op ops IH]; intros st Hst Hops; [exact Hst|].
  destruct Hops as [Hop Hrest]. simpl. apply IH; [|exact Hrest].
  now apply run_op_default_registered.
Qed.

(* ===================================================================== *)
(** ** The environment tag *)
(* ===================================================================== *)

Lemma is_prefix_spec p s : is_prefix p s = true <-> starts_with p s.
Proof.
  unfold starts_with. revert s. induction p as [|a p IH]; intros s; simpl.
  - split; [intros _; exists s; reflexivity | reflexivity].
  - destruct s as [|b s].
    + split; [discriminate | intros [rest Hrest]; discriminate].
    + destruct (Ascii.eqb a b) eqn:Hab.
      * apply Ascii.eqb_eq in Hab as ->. rewrite IH. split.
        -- intros [rest ->]. exists rest. reflexivity.
        -- intros [rest Hrest]. rewrite append_cons in Hrest.
           injection Hrest as ->. exists rest. reflexivity.
      * split; [discriminate|]. intros [rest Hrest]. rewrite append_cons in Hrest.
        injection Hrest as -> _. rewrite Ascii.eqb_refl in Hab. discriminate.
Qed.

Lemma str_contains_unfold n h :
  str_contains n h
  = if is_prefix n h then true
    else match h with
         | EmptyString => false
         | String _ rest => str_contains n rest
         end.
Proof. destruct h; reflexivity. Qed.

(** The model of [needle in haystack] finds exactly the substrings. *)
Lemma str_contains_spec n h : str_contains n h = true <-> occurs_in n h.
Proof.
  unfold occurs_in. split.
  - induction h as [|c h IH]; rewrite str_contains_unfold;
      destruct (is_prefix n _) eqn:Hp; try discriminate.
    + intros _. apply is_prefix_spec in Hp as [rest ->]. exists "", rest. reflexivity.
    + intros _. apply is_prefix_spec in Hp as [rest ->]. exists "", rest. reflexivity.
    + intros Hc. destruct (IH Hc) as (pre & post & ->).
      exists (String c pre), post. reflexivity.
  - intros (pre & post & ->). induction pre as [|c pre IH];
      rewrite str_contains_unfold.
    + assert (is_prefix n ("" +:+ n +:+ post) = true) as ->; [|reflexivity].
      apply is_prefix_spec. exists post. reflexivity.
    + rewrite append_cons. destruct (is_prefix n _); [reflexivity | exact IH].
Qed.

(** X6. Selecting a registered server sets the environment tag to
    ["prod"] exactly when the text ["生产"] occurs somewhere in the server's
    description, and to ["test"] otherwise. *)
Theorem set_default_server_id_env (st : state) (i : string) (srv : server) :
  SERVERS st !! i = Some srv ->
  (default_env (snd (set_default_server_id i st)) = "prod"
   <-> occurs_in "生产" (srv_description srv))
  /\ (default_env (snd (set_default_server_id i st)) = "test"
      <-> ~ occurs_in "生产" (srv_description srv)).
Proof.
  intros Hi. unfold set_default_server_id. rewrite Hi. simpl.
  rewrite <- str_contains_spec.
  destruct (str_contains "生产" (srv_description srv)); split; split;
    try reflexivity; try discriminate; try congruence.
Qed.

(** X7. After [set_default_server] selected a registered server,
    [get_default_server] reports that server: its id, name, description
    and url, and the label 生产环境 when the description contains ["生产"],
    测试环境 when it does not. *)
Theorem get_default_server_after_select (st : state) (i : string) (srv : server) :
  SERVERS st !! i = Some srv ->
  exists label,
    get_default_server (snd (set_default_server i st))
    = Ok (nl +:+ "当前默认服务器:" +:+ nl
          +:+ "ID: " +:+ i +:+ nl
          +:+ "名称: " +:+ srv_name srv +:+ nl
          +:+ "环境: " +:+ label +:+ nl
          +:+ "描述: " +:+ srv_description srv +:+ nl
          +:+ "地址: " +:+ srv_url srv +:+ nl)
    /\ (occurs_in "生产" (srv_description srv) -> label = "生产环境")
    /\ (~ occurs_in "生产" (srv_description srv) -> label = "测试环境").
Proof.
  intros Hi. unfold set_default_server, set_default_server_id. rewrite Hi. simpl.
  unfold get_default_server, get_default_server_id. simpl. rewrite Hi. simpl.
  pose proof (str_contains_spec "生产" (srv_description srv)) as Hspec.
  destruct (str_contains "生产" (srv_description srv)); simpl;
    eexists; (split; [reflexivity|]); split; intros H; try reflexivity.
  - destruct H. now apply Hspec.
  - apply Hspec in H. discriminate.
Qed.

(** X8. With a default id that names no entry of [SERVERS],
    [get_default_server] raises [KeyError]; this is what happens after
    [remove_server] removed the default server. *)
Theorem get_default_server_after_default_removed (st : state) :
  (~ default_registered st -> get_default_server st = Raise KeyError)
  /\ (default_registered st ->
        get_default_server (snd (remove_server (default_id st) st)) = Raise KeyError).
Proof.
  assert (forall st', ~ default_registered st' -> get_default_server st' = Raise KeyError)
    as Hdangling.
  { intros st' Hst'. unfold default_registered in Hst'.
    unfold get_default_server, get_default_server_id, SERVERS_getitem.
    destruct (SERVERS st' !! default_id st') as [srv|]; [|reflexivity].
    destruct Hst'. eauto. }
  split; [apply Hdangling|].
  intros [srv Hsrv]. apply Hdangling.
  unfold default_registered, remove_server. rewrite Hsrv. simpl.
  rewrite lookup_delete_eq. intros [x Hx]. discriminate.
Qed.

(* ===================================================================== *)
(** ** More on the tools *)
(* ===================================================================== *)

Section MoreTools.
Variable py : interpreter.

(** X9. Called with an id that is not registered, a tool never reaches
    the agent: [get_system_info], [get_process_info] and [get_all_stats]
    return the text of the [ValueError], every other telemetry tool lets
    the [ValueError] escape. *)
Theorem tools_on_unknown_id (t : tool) (i : string) (st : state) (w : adapter) :
  SERVERS st !! i = None ->
  call py t (Some i) st w
  = if catches_ValueError t then Ok ("未找到服务器配置: " +:+ i)
    else Raise (unknown_server i).
Proof.
  intros Hi.
  assert (forall ep, make_glances_request ep (Some i) st w = Raise (unknown_server i))
    as Hreq.
  { intros ep. unfold make_glances_request, get_server_url. rewrite Hi. reflexivity. }
  destruct t; simpl;
    match goal with
    | |- ?h _ _ _ _ = _ => unfold h
    | |- ?h _ _ _ = _ => unfold h
    end;
    rewrite Hreq; reflexivity.
Qed.

(** X10. For every tool that uses its [server_id] argument only to make
    the request, leaving the argument out is the same as passing the
    default id. *)
Theorem omitted_id_is_default_id (t : tool) (st : state) (w : adapter) :
  uses_server_id_argument t = false ->
  call py t None st w = call py t (Some (default_id st)) st w.
Proof. destruct t; try discriminate; intros _; reflexivity. Qed.

(** X11. [get_system_info], [get_process_info] and [get_all_stats] called
    without a server id raise [KeyError] as soon as the default server
    answers with data: they index [SERVERS] with the argument, which is
    [None]. *)
Theorem omitted_id_raises_KeyError (t : tool) (st : state) (w : adapter)
    (srv : server) (data : json) :
  indexes_SERVERS t = true ->
  target st None = Some srv ->
  http_get w (srv_url srv +:+ "/" +:+ endpoint t) = Some data ->
  truthy data = true ->
  call py t None st w = Raise KeyError.
Proof.
  intros Ht Hsrv Hget Htruthy.
  pose proof (request_body _ _ _ _ _ _ Hsrv Hget) as Hreq.
  destruct t; try discriminate; simpl in *;
    match goal with |- ?h _ _ _ _ = _ => unfold h end;
    rewrite Hreq; simpl; rewrite Htruthy; reflexivity.
Qed.

(** X12. [clear_all_alerts] posts to [events/clear/all] on the resolved
    server and answers by the outcome of the POST alone; leaving the id
    out posts to the default server, and an id that is not registered
    raises [ValueError] without any POST. *)
Theorem clear_all_alerts_outcome (server_id : option string) (st : state)
    (w : adapter) :
  (forall srv, target st server_id = Some srv ->
     clear_all_alerts server_id st w
     = Ok (if http_post w (srv_url srv +:+ "/" +:+ "events/clear/all")
           then "已成功清除所有告警。" else "清除告警失败。"))
  /\ clear_all_alerts None st w = clear_all_alerts (Some (default_id st)) st w
  /\ (forall i, SERVERS st !! i = None ->
        clear_all_alerts (Some i) st w = Raise (unknown_server i)).
Proof.
  split; [|split].
  - intros srv Hsrv. unfold clear_all_alerts, make_glances_post_request, get_server_url.
    unfold target in Hsrv. destruct server_id; simpl in *; rewrite Hsrv; reflexivity.
  - reflexivity.
  - intros i Hi. unfold clear_all_alerts, make_glances_post_request, get_server_url.
    rewrite Hi. reflexivity.
Qed.

End MoreTools.

(* ===================================================================== *)
(** ** Reports start with their header *)
(* ===================================================================== *)

Lemma starts_with_refl s : starts_with s s.
Proof.
  exists "". induction s as [|a s IH]; [reflexivity|].
  rewrite append_cons. now rewrite <- IH.
Qed.

Lemma starts_with_trans a b c : starts_with a b -> starts_with b c -> starts_with a c.
Proof.
  intros [r1 ->] [r2 ->]. exists (r1 +:+ r2). now rewrite append_assoc.
Qed.

Lemma starts_with_append a b : starts_with a (a +:+ b).
Proof. now exists b. Qed.

(** A loop whose body only appends to the text keeps what it started with. *)
Lemma for_loop_starts_with {A} (xs : list A) (body : string -> A -> result string) :
  (forall acc x r, body acc x = Ok r -> starts_with acc r) ->
  forall acc r, for_loop xs body acc = Ok r -> starts_with acc r.
Proof.
  intros Hbody. induction xs as [|x xs IH]; intros acc r; simpl.
  - intros [= ->]. apply starts_with_refl.
  - run. destruct (body acc x) as [acc'|] eqn:Hx; [|discriminate].
    intros Hr. eapply starts_with_trans; [exact (Hbody _ _ _ Hx) | exact (IH _ _ Hr)].
Qed.

(** Case analysis on the results inspected by a hypothesis that ends in [Ok]. *)
Ltac ok_cases H :=
  repeat match type of H with
         | context [match ?r with Ok _ => _ | Raise _ => _ end] =>
             lazymatch r with
             | context [match _ with Ok _ => _ | Raise _ => _ end] => fail
             | _ => destruct r; cbv beta iota in H; try discriminate H
             end
         end.

Section DeadBranches.
Variable py : interpreter.

Lemma format_docker_info_header data r :
  truthy data = true ->
  format_docker_info py data = Ok r ->
  starts_with ("Docker容器信息:" +:+ nl) r.
Proof.
  intros Htruthy. unfold format_docker_info. rewrite Htruthy. simpl negb. cbv iota.
  run. destruct (py_iter data) as [items|]; [|discriminate].
  apply for_loop_starts_with. intros acc c r' Hc.
  unfold mbind, result_bind in Hc. cbv beta iota in Hc. ok_cases Hc.
  injection Hc as <-. apply starts_with_append.
Qed.

Lemma format_gpu_info_header data r :
  truthy data = true ->
  format_gpu_info py data = Ok r ->
  starts_with ("GPU信息:" +:+ nl) r.
Proof.
  intros Htruthy. unfold format_gpu_info. rewrite Htruthy. simpl negb. cbv iota.
  run. destruct (py_iter data) as [items|]; [|discriminate].
  apply for_loop_starts_with. intros acc c r' Hc.
  unfold mbind, result_bind in Hc. cbv beta iota in Hc. ok_cases Hc.
  injection Hc as <-. apply starts_with_append.
Qed.

(** X13. The "no running container" and "no GPU" answers of
    [format_docker_info] and [format_gpu_info] cannot come out of
    [get_docker_info] and [get_gpu_info]: an empty payload is answered
    with the "unavailable" text before the formatter is called. *)
Theorem empty_answers_unreachable (server_id : option string) (st : state)
    (w : adapter) :
  get_docker_info py server_id st w <> Ok "没有运行中的Docker容器"
  /\ get_gpu_info py server_id st w <> Ok "没有检测到GPU或GPU信息不可用"
  /\ format_docker_info py (JList []) = Ok "没有运行中的Docker容器"
  /\ format_gpu_info py (JList []) = Ok "没有检测到GPU或GPU信息不可用".
Proof.
  split; [|split; [|split; reflexivity]].
  - unfold get_docker_info. run.
    destruct (make_glances_request "containers" server_id st w) as [data|];
      [|discriminate].
    destruct (truthy data) eqn:Htruthy; simpl negb; cbv iota; [|discriminate].
    intros Hr. apply format_docker_info_header in Hr as [rest Hrest]; [|assumption].
    discriminate Hrest.
  - unfold get_gpu_info. run.
    destruct (make_glances_request "gpu" server_id st w) as [data|];
      [|discriminate].
    destruct (truthy data) eqn:Htruthy; simpl negb; cbv iota; [|discriminate].
    intros Hr. apply format_gpu_info_header in Hr as [rest Hrest]; [|assumption].
    discriminate Hrest.
Qed.

End DeadBranches.

(* ===================================================================== *)
(** ** Uptime and the aggregate report *)
(* ===================================================================== *)

Section Uptime.
Variable py : interpreter.

(** X14. For any payload that reads as [n] seconds, the hours and minutes
    [get_uptime] prints are clock values (below 24 and below 60), and the
    printed days, hours and minutes give [n] back up to the minute. *)
Theorem get_uptime_components (server_id : option string) (st : state)
    (w : adapter) (srv : server) (data : json) (n : Z) :
  target st server_id = Some srv ->
  http_get w (srv_url srv +:+ "/" +:+ "uptime") = Some data ->
  truthy data = true ->
  py_int py data = Ok n ->
  exists days hours minutes,
    get_uptime py server_id st w
    = Ok ("系统已运行: " +:+ str_int days +:+ "天 " +:+ str_int hours +:+ "小时 "
          +:+ str_int minutes +:+ "分钟")
    /\ 0 <= hours < 24
    /\ 0 <= minutes < 60
    /\ days * 86400 + hours * 3600 + minutes * 60 <= n
       < days * 86400 + hours * 3600 + minutes * 60 + 60.
Proof.
  intros Hsrv Hget Htruthy Hint.
  exists (n / 86400), (n mod 86400 / 3600), (n mod 3600 / 60).
  split.
  - unfold get_uptime. rewrite (request_body _ _ _ _ _ _ Hsrv Hget). simpl.
    rewrite Htruthy. simpl. rewrite Hint. reflexivity.
  - Z.div_mod_to_equations. lia.
Qed.

(** X15. When the uptime payload is a text that [int] rejects,
    [get_uptime] raises the [ValueError] of [int]; inside [get_all_stats]
    that error is caught, and the whole aggregate report is replaced by
    the message of the error. *)
Theorem get_all_stats_swallows_uptime_error (i : string) (st : state)
    (w : adapter) (srv : server) (data : json) (s : string)
    (system cpu memory disk_io network : string) :
  SERVERS st !! i = Some srv ->
  http_get w (srv_url srv +:+ "/" +:+ "all") = Some data ->
  truthy data = true ->
  get_system_info py (Some i) st w = Ok system ->
  get_cpu_info py (Some i) st w = Ok cpu ->
  get_memory_info py (Some i) st w = Ok memory ->
  get_disk_io_info (Some i) st w = Ok disk_io ->
  get_network_info py (Some i) st w = Ok network ->
  http_get w (srv_url srv +:+ "/" +:+ "uptime") = Some (JStr s) ->
  s <> "" ->
  int_of_str py s = None ->
  get_uptime py (Some i) st w = Raise (ValueError (int_error_text py s))
  /\ get_all_stats py (Some i) st w = Ok (int_error_text py s).
Proof.
  intros Hi Hall Htruthy Hsystem Hcpu Hmemory Hdisk Hnetwork Huptime Hs Hint.
  assert (get_uptime py (Some i) st w = Raise (ValueError (int_error_text py s)))
    as Hup.
  { unfold get_uptime. rewrite (request_body "uptime" (Some i) st w srv _ Hi Huptime).
    run. simpl truthy. destruct (String.eqb_spec s ""); [congruence|].
    simpl. rewrite Hint. reflexivity. }
  split; [exact Hup|].
  unfold get_all_stats.
  rewrite (request_body "all" (Some i) st w srv data Hi Hall).
  run. rewrite Htruthy. simpl negb. cbv iota.
  unfold SERVERS_getitem. rewrite Hi. cbv beta iota.
  rewrite Hsystem, Hcpu, Hmemory, Hdisk, Hnetwork, Hup. reflexivity.
Qed.

Lemma append_inv_head a b c : a +:+ b = a +:+ c -> b = c.
Proof.
  induction a as [|x a IH]; [auto|]. rewrite !append_cons. intros [= H]. auto.
Qed.

Lemma request_with_page ep i st w srv url body :
  SERVERS st !! i = Some srv ->
  url <> srv_url srv +:+ "/" +:+ ep ->
  make_glances_request ep (Some i) st (with_page w url body)
  = make_glances_request ep (Some i) st w.
Proof.
  intros Hi Hurl. unfold make_glances_request, get_server_url. rewrite Hi. simpl.
  destruct (String.eqb_spec (srv_url srv +:+ "/" +:+ ep) url); [congruence|reflexivity].
Qed.

(** X16. [get_all_stats] fetches the [all] endpoint only to test that it
    answers: two payloads of that endpoint that are both truthy give the
    same aggregate report. *)
Theorem get_all_stats_ignores_all_payload (i : string) (st : state) (w : adapter)
    (srv : server) (data data' : json) :
  SERVERS st !! i = Some srv ->
  truthy data = true ->
  truthy data' = true ->
  get_all_stats py (Some i) st (with_page w (srv_url srv +:+ "/" +:+ "all") data)
  = get_all_stats py (Some i) st (with_page w (srv_url srv +:+ "/" +:+ "all") data').
Proof.
  intros Hi Hdata Hdata'.
  assert (forall ep body, ep <> "all" ->
            make_glances_request ep (Some i) st
              (with_page w (srv_url srv +:+ "/" +:+ "all") body)
            = make_glances_request ep (Some i) st w) as Hother.
  { intros ep body Hep. apply request_with_page with (srv := srv); [exact Hi|].
    intros Heq. apply append_inv_head in Heq. apply (append_inv_head "/") in Heq.
    congruence. }
  assert (forall body,
            make_glances_request "all" (Some i) st
              (with_page w (srv_url srv +:+ "/" +:+ "all") body) = Ok body) as Hall.
  { intros body. unfold make_glances_request, get_server_url. rewrite Hi. simpl.
    rewrite String.eqb_refl. reflexivity. }
  unfold get_all_stats, get_system_info, get_cpu_info, get_memory_info,
    get_disk_io_info, get_network_info, get_uptime.
  rewrite !Hall, !Hother by discriminate.
  run. rewrite Hdata, Hdata'. reflexivity.
Qed.

End Uptime.

(* ===================================================================== *)
(** ** More on the formatters *)
(* ===================================================================== *)

Lemma str_items_strings names : str_items (List.map JStr names) = Ok names.
Proof.
  induction names as [|s names IH]; [reflexivity|]. simpl. rewrite IH. reflexivity.
Qed.

Lemma utf8_split_concat s :
  fst (utf8_split s) +:+ String.concat "" (snd (utf8_split s)) = s.
Proof.
  induction s as [|a s IH]; [reflexivity|].
  change (utf8_split (String a s))
    with (let '(cont, cs) := utf8_split s in
          if is_continuation a then (String a cont, cs)
          else (EmptyString, String a cont :: cs)).
  destruct (utf8_split s) as [cont cs]. cbv beta iota. unfold fst, snd in IH.
  destruct (is_continuation a); unfold fst, snd.
  - rewrite append_cons. now rewrite IH.
  - change ("" +:+ String.concat "" (String a cont :: cs))
      with (String.concat "" (String a cont :: cs)).
    destruct cs as [|c cs].
    + change (String.concat "" [String a cont]) with (String a cont).
      change (String.concat "" []) with "" in IH. rewrite append_nil_r in IH.
      now rewrite IH.
    + rewrite concat_cons_cons, append_cons. now rewrite IH.
Qed.

(** Cutting a text into code points and gluing them gives the text back. *)
Lemma code_points_concat s : String.concat "" (code_points s) = s.
Proof.
  pose proof (utf8_split_concat s) as H. unfold code_points.
  destruct (utf8_split s) as [cont cs]. unfold fst, snd in H.
  destruct cont as [|a cont]; [exact H|].
  destruct cs as [|c cs].
  - change (String.concat "" [String a cont]) with (String a cont).
    change (String.concat "" []) with "" in H. now rewrite append_nil_r in H.
  - rewrite concat_cons_cons. exact H.
Qed.

Section MoreFormatters.
Variable py : interpreter.

(** X18. [format_process_info] reads the first five processes only: the
    report of a list is the report of its first five elements, whatever
    comes after them. *)
Theorem format_process_info_first_five (processes : list json) :
  format_process_info py (JList processes)
  = format_process_info py (JList (firstn 5 processes)).
Proof.
  unfold format_process_info. simpl py_slice. run.
  rewrite firstn_firstn. reflexivity.
Qed.

(** X19. In an alert report the end time is the alert's [end] field when
    it is present and [Unknown] when it is absent: the ['-1'] default of
    the template is never printed. *)
Theorem format_alert_info_end_field (d : list (string * json)) :
  format_alert_info py (JList [JDict d])
  = Ok (("告警信息:" +:+ nl) +:+ nl
        +:+ "类型: " +:+ py_str py (default (JStr "Unknown") (assoc "type" d)) +:+ nl
        +:+ "状态: " +:+ py_str py (default (JStr "Unknown") (assoc "state" d)) +:+ nl
        +:+ "开始时间: " +:+ py_str py (default (JStr "Unknown") (assoc "begin" d)) +:+ nl
        +:+ "结束时间: " +:+ py_str py (default (JStr "Unknown") (assoc "end" d)) +:+ nl
        +:+ "描述: " +:+ py_str py (default (JStr "No description") (assoc "desc" d))
        +:+ nl).
Proof.
  unfold format_alert_info. simpl truthy. simpl negb. cbv iota.
  simpl py_iter. run. simpl for_loop. unfold py_get. run.
  destruct (assoc "end" d) as [v|]; simpl.
  - destruct (py_eq_int v (-1)); reflexivity.
  - reflexivity.
Qed.

(** X20. A sensor group whose value is neither a list nor an object is
    not an error for [format_sensors_info]: the group is printed as its
    bare heading. *)
Theorem format_sensors_info_skips_scalars (sensor_type : string) (sensors : json) :
  is_dict sensors = false ->
  (forall l, sensors <> JList l) ->
  format_sensors_info py (JDict [(sensor_type, sensors)])
  = Ok (("传感器信息:" +:+ nl) +:+ nl +:+ sensor_type +:+ ":" +:+ nl).
Proof.
  intros Hdict Hlist. unfold format_sensors_info. simpl py_items. run. simpl for_loop.
  run. destruct sensors; try reflexivity; [now destruct (Hlist l) | discriminate].
Qed.

(** X21. [get_plugins_list] on a non-empty list of names returns the
    heading followed by the names separated by a comma and a space. *)
Theorem get_plugins_list_joins (server_id : option string) (st : state)
    (w : adapter) (srv : server) (names : list string) :
  target st server_id = Some srv ->
  http_get w (srv_url srv +:+ "/" +:+ "pluginslist") = Some (JList (List.map JStr names)) ->
  names <> [] ->
  get_plugins_list server_id st w = Ok ("已启用的插件:" +:+ nl +:+ join ", " names).
Proof.
  intros Hsrv Hget Hnames. unfold get_plugins_list.
  rewrite (request_body _ _ _ _ _ _ Hsrv Hget). run.
  assert (truthy (JList (List.map JStr names)) = true) as ->
    by (destruct names; [congruence | reflexivity]).
  simpl negb. cbv iota. unfold py_join, py_iter. run.
  rewrite str_items_strings. reflexivity.
Qed.

(** X22. A container id of at most twelve characters is printed in full
    by [format_docker_info]; only longer ids are cut. *)
Theorem format_docker_info_short_id (d : list (string * json)) (id : string) :
  assoc "id" d = Some (JStr id) ->
  (length (code_points id) <= 12)%nat ->
  format_docker_info py (JList [JDict d])
  = (image ← py_index0 (default (JList [JStr "Unknown"]) (assoc "image" d));
     Ok (("Docker容器信息:" +:+ nl) +:+ nl
         +:+ "容器ID: " +:+ id +:+ nl
         +:+ "名称: " +:+ py_str py (default (JStr "Unknown") (assoc "name" d)) +:+ nl
         +:+ "镜像: " +:+ py_str py image +:+ nl
         +:+ "状态: " +:+ py_str py (default (JStr "Unknown") (assoc "status" d)) +:+ nl
         +:+ "CPU使用率: " +:+ py_str py (field "cpu_percent" d) +:+ "%" +:+ nl
         +:+ "内存使用率: " +:+ py_str py (field "memory_percent" d) +:+ "%" +:+ nl)).
Proof.
  intros Hid Hlen. unfold format_docker_info. simpl truthy. simpl negb. cbv iota.
  simpl py_iter. run. simpl for_loop. unfold py_get, field. run.
  rewrite Hid. simpl default. simpl py_slice. cbv beta iota.
  rewrite firstn_all2 by exact Hlen. rewrite code_points_concat.
  destruct (py_index0 _); reflexivity.
Qed.

End MoreFormatters.

Lemma format_bytes_small_table :
  forallb
    (fun n => match format_bytes (JInt n) with
              | Ok text => String.eqb text (str_int n +:+ ".00 B")
              | Raise _ => false
              end)
    (List.map (fun k => Z.of_nat k - 1023) (seq 0 2047)) = true.
Proof. vm_compute. reflexivity. Qed.

(** X23. An integer byte count between -1023 and 1023 is printed by
    [format_bytes] as the integer itself with two zero decimals and the
    unit B. *)
Theorem format_bytes_below_1024 (n : Z) :
  -1024 < n < 1024 ->
  format_bytes (JInt n) = Ok (str_int n +:+ ".00 B").
Proof.
  intros Hn.
  pose proof (proj1 (forallb_forall _ _) format_bytes_small_table n) as H.
  assert (In n (List.map (fun k => Z.of_nat k - 1023) (seq 0 2047))) as Hin.
  { apply in_map_iff. exists (Z.to_nat (n + 1023)). split; [lia|].
    apply in_seq. lia. }
  specialize (H Hin). cbv beta in H.
  destruct (format_bytes (JInt n)); [|discriminate].
  apply String.eqb_eq in H. now subst.
Qed.

(* ===================================================================== *)
(** ** Worked examples for the further properties *)
(* ===================================================================== *)

(** A third server is added; server1 is added again. *)
Lemma add_server_resolves_witness :
  (SERVERS example_state !! "server3" = None
   /\ get_server_url (Some "server3")
        (snd (add_server "server3" "备用" "http://192.168.1.30:61208/api/4" ""
                example_state))
      = Ok "http://192.168.1.30:61208/api/4")
  /\ (SERVERS example_state !! "server1" = Some example_server1
      /\ add_server "server1" "x" "http://x" "" example_state
         = (Ok "错误：服务器ID 'server1' 已存在", example_state)).
Proof.
  assert (SERVERS example_state !! "server3" = None) as H3 by (vm_compute; reflexivity).
  assert (SERVERS example_state !! "server1" = Some example_server1) as H1
    by (vm_compute; reflexivity).
  split; split; try assumption.
  - apply (proj1 (add_server_resolves example_state "server3" "备用"
                    "http://192.168.1.30:61208/api/4" "") H3).
  - apply (proj2 (add_server_resolves example_state "server1" "x" "http://x" "")
             example_server1 H1).
Defined.

(** server2 is removed; an unknown id is removed. *)
Lemma remove_server_forgets_witness :
  (SERVERS example_state !! "server2" = Some example_server2
   /\ get_server_url (Some "server2") (snd (remove_server "server2" example_state))
      = Raise (ValueError "未找到服务器配置: server2"))
  /\ (SERVERS example_state !! "nope" = None
      /\ remove_server "nope" example_state
         = (Ok "错误：未找到服务器ID 'nope'", example_state)).
Proof.
  assert (SERVERS example_state !! "server2" = Some example_server2) as H2
    by (vm_compute; reflexivity).
  assert (SERVERS example_state !! "nope" = None) as Hn by (vm_compute; reflexivity).
  split; split; try assumption.
  - apply (proj1 (remove_server_forgets example_state "server2") example_server2 H2).
  - apply (proj2 (remove_server_forgets example_state "nope") Hn).
Defined.

Lemma add_then_remove_restores_witness :
  snd (remove_server "server3"
         (snd (add_server "server3" "备用" "http://192.168.1.30:61208/api/4" ""
                 example_state)))
  = example_state.
Proof.
  apply add_then_remove_restores. vm_compute. reflexivity.
Defined.

(** The default server is removed and another one added: the pointer stays. *)
Lemma add_remove_keep_default_pointer_witness :
  default_id (run_ops [OpRemove "server1"; OpAdd "server3" "备用" "http://x" ""]
                example_state) = "server1"
  /\ default_env (run_ops [OpRemove "server1"; OpAdd "server3" "备用" "http://x" ""]
                    example_state) = "test".
Proof.
  apply (add_remove_keep_default_pointer
           [OpRemove "server1"; OpAdd "server3" "备用" "http://x" ""] example_state).
  reflexivity.
Defined.

(** server2 becomes the default before server1 is removed. *)
Lemma run_ops_default_registered_witness :
  default_registered
    (run_ops [OpAdd "server3" "备用" "http://x" ""; OpSetDefault "server2";
              OpRemove "server1"] example_state).
Proof.
  apply run_ops_default_registered.
  - exists example_server1. vm_compute. reflexivity.
  - split; [exact I|]. split; [exact I|]. split; [|exact I].
    vm_compute. discriminate.
Defined.

Lemma set_default_server_id_env_witness :
  default_env (snd (set_default_server_id "server2" example_state)) = "prod"
  /\ default_env (snd (set_default_server_id "server1" example_state)) = "test".
Proof.
  split.
  - apply (proj1 (set_default_server_id_env example_state "server2" example_server2
                    ltac:(vm_compute; reflexivity))).
    exists "", "环境". reflexivity.
  - apply (proj2 (set_default_server_id_env example_state "server1" example_server1
                    ltac:(vm_compute; reflexivity))).
    intros H. apply str_contains_spec in H. vm_compute in H. discriminate.
Defined.

Lemma get_default_server_after_select_witness :
  exists label,
    get_default_server (snd (set_default_server "server2" example_state))
    = Ok (nl +:+ "当前默认服务器:" +:+ nl
          +:+ "ID: server2" +:+ nl
          +:+ "名称: 生产服务器" +:+ nl
          +:+ "环境: " +:+ label +:+ nl
          +:+ "描述: 生产环境" +:+ nl
          +:+ "地址: http://192.168.1.20:61208/api/4" +:+ nl)
    /\ label = "生产环境".
Proof.
  destruct (get_default_server_after_select example_state "server2" example_server2
              ltac:(vm_compute; reflexivity)) as (label & Htext & Hprod & _).
  exists label. split; [exact Htext|].
  apply Hprod. exists "", "环境". reflexivity.
Defined.

(** After the default server was removed the report is gone. *)
Lemma get_default_server_after_default_removed_witness :
  default_registered example_state
  /\ get_default_server (snd (remove_server "server1" example_state)) = Raise KeyError
  /\ get_default_server
       {| SERVERS := example_servers; default_id := "server9"; default_env := "test" |}
     = Raise KeyError.
Proof.
  assert (default_registered example_state) as Hreg
    by (exists example_server1; vm_compute; reflexivity).
  split; [exact Hreg|]. split.
  - apply (proj2 (get_default_server_after_default_removed example_state) Hreg).
  - apply (proj1 (get_default_server_after_default_removed
                    {| SERVERS := example_servers; default_id := "server9";
                       default_env := "test" |})).
    intros [srv Hsrv]. vm_compute in Hsrv. discriminate.
Defined.

Lemma tools_on_unknown_id_witness :
  call example_interpreter GetMemoryInfo (Some "nope") example_state example_agent
  = Raise (ValueError "未找到服务器配置: nope")
  /\ call example_interpreter GetAllStats (Some "nope") example_state example_agent
     = Ok "未找到服务器配置: nope".
Proof.
  assert (SERVERS example_state !! "nope" = None) as Hn by (vm_compute; reflexivity).
  split.
  - apply (tools_on_unknown_id example_interpreter GetMemoryInfo "nope" example_state
             example_agent Hn).
  - apply (tools_on_unknown_id example_interpreter GetAllStats "nope" example_state
             example_agent Hn).
Defined.

Lemma omitted_id_is_default_id_witness :
  call example_interpreter GetUptime None example_state example_agent
  = call example_interpreter GetUptime (Some "server1") example_state example_agent.
Proof.
  apply (omitted_id_is_default_id example_interpreter GetUptime example_state
           example_agent).
  reflexivity.
Defined.

Lemma omitted_id_raises_KeyError_witness :
  call example_interpreter GetAllStats None example_state example_agent
  = Raise KeyError.
Proof.
  apply (omitted_id_raises_KeyError example_interpreter GetAllStats example_state
           example_agent example_server1 (JDict [("cpu", JDict [("total", JInt 7)])]));
    vm_compute; reflexivity.
Defined.

Lemma clear_all_alerts_outcome_witness :
  clear_all_alerts None example_state example_agent = Ok "已成功清除所有告警。"
  /\ clear_all_alerts (Some "server2") example_state no_agent = Ok "清除告警失败。"
  /\ clear_all_alerts (Some "nope") example_state example_agent
     = Raise (ValueError "未找到服务器配置: nope").
Proof.
  split; [|split].
  - apply (proj1 (clear_all_alerts_outcome None example_state example_agent)
             example_server1).
    vm_compute. reflexivity.
  - apply (proj1 (clear_all_alerts_outcome (Some "server2") example_state no_agent)
             example_server2).
    vm_compute. reflexivity.
  - apply (proj2 (proj2 (clear_all_alerts_outcome None example_state example_agent))).
    vm_compute. reflexivity.
Defined.

(** 90000 seconds: one day, one hour, no minute. *)
Lemma get_uptime_components_witness :
  exists days hours minutes,
    get_uptime example_interpreter (Some "server1") example_state example_agent
    = Ok ("系统已运行: " +:+ str_int days +:+ "天 " +:+ str_int hours +:+ "小时 "
          +:+ str_int minutes +:+ "分钟")
    /\ 0 <= hours < 24
    /\ 0 <= minutes < 60
    /\ days * 86400 + hours * 3600 + minutes * 60 <= 90000
       < days * 86400 + hours * 3600 + minutes * 60 + 60.
Proof.
  apply (get_uptime_components example_interpreter (Some "server1") example_state
           example_agent example_server1 (JInt 90000) 90000).
  - vm_compute. reflexivity.
  - reflexivity.
  - reflexivity.
  - reflexivity.
Defined.

(** The uptime as [glances] prints it is no integer literal. *)
Lemma get_all_stats_swallows_uptime_error_witness :
  get_all_stats example_interpreter (Some "server1") example_state
    example_agent_text_uptime
  = Ok "invalid literal for int() with base 10: '1 day, 2:03:04'".
Proof.
  edestruct (get_all_stats_swallows_uptime_error example_interpreter "server1"
               example_state example_agent_text_uptime example_server1
               (JDict [("cpu", JDict [("total", JInt 7)])]) "1 day, 2:03:04")
    as [_ Hall].
  - vm_compute. reflexivity.
  - reflexivity.
  - reflexivity.
  - vm_compute. reflexivity.
  - vm_compute. reflexivity.
  - vm_compute. reflexivity.
  - vm_compute. reflexivity.
  - vm_compute. reflexivity.
  - reflexivity.
  - discriminate.
  - reflexivity.
  - exact Hall.
Defined.

Lemma get_all_stats_ignores_all_payload_witness :
  get_all_stats example_interpreter (Some "server1") example_state
    (with_page example_agent (srv_url example_server1 +:+ "/" +:+ "all") (JInt 1))
  = get_all_stats example_interpreter (Some "server1") example_state
      (with_page example_agent (srv_url example_server1 +:+ "/" +:+ "all") (JStr "x")).
Proof.
  apply get_all_stats_ignores_all_payload.
  - vm_compute. reflexivity.
  - reflexivity.
  - reflexivity.
Defined.

Lemma format_sensors_info_skips_scalars_witness :
  format_sensors_info example_interpreter (JDict [("uptime", JInt 42)])
  = Ok (("传感器信息:" +:+ nl) +:+ nl +:+ "uptime" +:+ ":" +:+ nl).
Proof.
  apply format_sensors_info_skips_scalars; [reflexivity | discriminate].
Defined.

Lemma get_plugins_list_joins_witness :
  get_plugins_list None example_state
    (constant_agent (JList (List.map JStr ["cpu"; "mem"; "network"])))
  = Ok ("已启用的插件:" +:+ nl +:+ "cpu, mem, network").
Proof.
  apply (get_plugins_list_joins None example_state
           (constant_agent (JList (List.map JStr ["cpu"; "mem"; "network"])))
           example_server1 ["cpu"; "mem"; "network"]).
  - vm_compute. reflexivity.
  - reflexivity.
  - discriminate.
Defined.

Lemma format_docker_info_short_id_witness :
  format_docker_info example_interpreter
    (JList [JDict [("id", JStr "abc123"); ("image", JList [JStr "redis:7"])]])
  = Ok (("Docker容器信息:" +:+ nl) +:+ nl
        +:+ "容器ID: abc123" +:+ nl
        +:+ "名称: Unknown" +:+ nl
        +:+ "镜像: redis:7" +:+ nl
        +:+ "状态: Unknown" +:+ nl
        +:+ "CPU使用率: 0%" +:+ nl
        +:+ "内存使用率: 0%" +:+ nl).
Proof.
  rewrite (format_docker_info_short_id example_interpreter
             [("id", JStr "abc123"); ("image", JList [JStr "redis:7"])] "abc123").
  - reflexivity.
  - reflexivity.
  - vm_compute. lia.
Defined.

Lemma format_bytes_below_1024_witness :
  format_bytes (JInt 512) = Ok "512.00 B" /\ format_bytes (JInt (-5)) = Ok "-5.00 B".
Proof.
  split.
  - apply (format_bytes_below_1024 512). lia.
  - apply (format_bytes_below_1024 (-5)). lia.
Defined.
